(** * The acquisition-and-transcription pipeline of [youtube_transcriber.py]

    A shallow embedding of class [YouTubeTranscriber]: the video-id
    extraction, the caption fetcher, the four-strategy download chain, the
    ffmpeg audio extraction, the lazily loaded Whisper model and
    [process_video] with its unconditional cleanup.

    Everything outside the Python process (the caption service, yt-dlp,
    ffmpeg, Whisper, the chat-completion service, [os.remove]) answers
    through an [Env] of oracles.  The methods run in a state-and-exception
    monad over the transcriber object, the set of files on disk and the
    trace of calls made to the outside.  Console output ([print]) is not
    modelled. *)

From Stdlib Require Import Ascii String.
From stdpp Require Import gmap strings list.

(** ** The fragment of Python's [re] that the patterns use *)

Module Re.

Inductive regex : Type :=
| Lit (l : string)              (* a run of literal characters *)
| Star (c : ascii -> bool)      (* greedy [c*] over a character class *)
| Plus (c : ascii -> bool)      (* greedy [c+] over a character class *)
| Alt (r1 r2 : regex)           (* [r1|r2], left alternative first *)
| Seq (r1 r2 : regex)
| Group (r : regex).            (* capturing group 1 *)

(** What a successful [re.search] hands back. *)
Record Match : Type := { group0 : string; group1 : option string }.

Fixpoint strip_prefix (l s : string) : option string :=
  match l with
  | EmptyString => Some s
  | String a l' =>
      match s with
      | EmptyString => None
      | String b s' => if Ascii.eqb a b then strip_prefix l' s' else None
      end
  end.

(** Greedy repetition of a class: the longest run is tried first and one
    character is given back each time the rest of the pattern fails. *)
Fixpoint greedy {R : Type} (c : ascii -> bool) (acc s : string)
    (k : string -> string -> option R) : option R :=
  match s with
  | String a s' =>
      if c a then
        match greedy c (acc +:+ String a EmptyString) s' k with
        | Some r => Some r
        | None => k acc s
        end
      else k acc s
  | EmptyString => k acc s
  end.

(** Backtracking matcher anchored at the head of [s].  The continuation
    receives the text matched, the rest of the input and the capture. *)
Fixpoint rmatch {R : Type} (r : regex) (s : string) (cap : option string)
    (k : string -> string -> option string -> option R) : option R :=
  match r with
  | Lit l =>
      match strip_prefix l s with
      | Some rest => k l rest cap
      | None => None
      end
  | Star c => greedy c EmptyString s (fun m rest => k m rest cap)
  | Plus c =>
      match s with
      | String a s' =>
          if c a then greedy c (String a EmptyString) s' (fun m rest => k m rest cap)
          else None
      | EmptyString => None
      end
  | Alt r1 r2 =>
      match rmatch r1 s cap k with
      | Some x => Some x
      | None => rmatch r2 s cap k
      end
  | Seq r1 r2 =>
      rmatch r1 s cap (fun m1 rest1 cap1 =>
        rmatch r2 rest1 cap1 (fun m2 rest2 cap2 => k (m1 +:+ m2) rest2 cap2))
  | Group r1 => rmatch r1 s cap (fun m rest _ => k m rest (Some m))
  end.

Definition match_here (r : regex) (s : string) : option Match :=
  rmatch r s None (fun m _ cap => Some {| group0 := m; group1 := cap |}).

(** [re.search]: the leftmost position at which the pattern matches. *)
Fixpoint search (r : regex) (s : string) : option Match :=
  match match_here r s with
  | Some m => Some m
  | None =>
      match s with
      | EmptyString => None
      | String _ s' => search r s'
      end
  end.

End Re.

(** ** Exceptions and results *)

Inductive ExnClass : Type :=
| ValueError
| PlainException            (* [raise Exception(...)] *)
| CalledProcessError
| FileNotFoundError
| OtherError (name : string).

(** Every exception modelled is an instance of Python's [Exception]. *)
Record Exn : Type := { exn_class : ExnClass; exn_msg : string }.

(** [str(e)] *)
Definition str (e : Exn) : string := exn_msg e.

Inductive Result (A : Type) : Type :=
| Ok (a : A)
| Raise (e : Exn).
Arguments Ok {A} a.
Arguments Raise {A} e.

(** ** The world outside the process *)

(** One caption fragment of [YouTubeTranscriptApi.get_transcript]. *)
Record Fragment : Type := { text : string; start_ms : nat; duration_ms : nat }.

(** The [ydl_opts] dictionaries. *)
Record YdlOpts : Type := {
  outtmpl : string;
  format : string;
  quiet : bool;
  http_headers : option (list (string * string));
  cookiesfrombrowser : option (list string);
  retries : option nat;
  fragment_retries : option nat;
  extractor_retries : option nat;
  throttledratelimit : option N
}.

(** How a run of an external tool ends.  A tool that fails may still have
    left (part of) its output file behind. *)
Inductive ToolOutcome : Type :=
| Done
| Failed (e : Exn) (leaves_output : bool).

(** A loaded Whisper model: its size tag and the serial number of its
    construction. *)
Record Model : Type := { model_size : string; model_serial : nat }.

(** The answers of the outside world, one oracle per external call. *)
Record Env : Type := {
  ext_get_transcript : string -> list string -> Exn + list Fragment;
  ext_ydl_download : YdlOpts -> list string -> ToolOutcome;
  ext_subprocess_run : list string -> ToolOutcome;
  ext_load_model : string -> option Exn;
  ext_transcribe : Model -> string -> string -> Exn + string;
  ext_chat_completion : string -> string -> string -> nat -> Exn + string;
  ext_os_remove : string -> option Exn
}.

(** Calls that leave the process, in the order they are made. *)
Inductive Event : Type :=
| EvGetTranscript (video_id : string) (languages : list string)
| EvDownload (opts : YdlOpts) (urls : list string)
| EvSleep (ms : nat)
| EvSleepUniform (lo_ms hi_ms : nat)
| EvSubprocess (cmd : list string)
| EvLoadModel (size : string)
| EvTranscribe (m : Model) (audio_path language : string)
| EvChat (model system_content user_content : string) (max_tokens : nat)
| EvRemove (path : string).

(** The attributes of a [YouTubeTranscriber] object. *)
Record Transcriber : Type := {
  openai_api_key : string;
  whisper_model_size : string;
  whisper_model : option Model
}.

(** The store: the object [self], the files on disk, the models built so
    far in the process, the trace, and the local list [temp_files] of the
    running [process_video] (it lives here because the [finally] block reads
    it after an exception has unwound the body). *)
Record State : Type := {
  self : Transcriber;
  files : gset string;
  models_built : nat;
  trace : list Event;
  temp_files : list string
}.

Definition with_self (f : Transcriber -> Transcriber) (st : State) : State :=
  {| self := f (self st); files := files st; models_built := models_built st;
     trace := trace st; temp_files := temp_files st |}.

Definition with_files (f : gset string -> gset string) (st : State) : State :=
  {| self := self st; files := f (files st); models_built := models_built st;
     trace := trace st; temp_files := temp_files st |}.

Definition with_models_built (n : nat) (st : State) : State :=
  {| self := self st; files := files st; models_built := n;
     trace := trace st; temp_files := temp_files st |}.

Definition with_trace (f : list Event -> list Event) (st : State) : State :=
  {| self := self st; files := files st; models_built := models_built st;
     trace := f (trace st); temp_files := temp_files st |}.

Definition with_temp_files (f : list string -> list string) (st : State) : State :=
  {| self := self st; files := files st; models_built := models_built st;
     trace := trace st; temp_files := f (temp_files st) |}.

Definition set_whisper_model (m : option Model) (t : Transcriber) : Transcriber :=
  {| openai_api_key := openai_api_key t;
     whisper_model_size := whisper_model_size t;
     whisper_model := m |}.

(** ** The monad: state threaded through, exceptions short-circuit *)

Definition M (A : Type) : Type := State -> Result A * State.

Definition ret {A : Type} (a : A) : M A := fun st => (Ok a, st).

Definition raise {A : Type} (e : Exn) : M A := fun st => (Raise e, st).

Definition bind {A B : Type} (m : M A) (f : A -> M B) : M B :=
  fun st =>
    match m st with
    | (Ok a, st') => f a st'
    | (Raise e, st') => (Raise e, st')
    end.

Declare Scope py_scope.
Delimit Scope py_scope with py.
Notation "x <- c1 ;; c2" := (bind c1 (fun x => c2))
  (at level 100, c1 at next level, right associativity) : py_scope.
Notation "c1 ;; c2" := (bind c1 (fun _ => c2))
  (at level 100, right associativity) : py_scope.
Open Scope py_scope.

Definition get : M State := fun st => (Ok st, st).

Definition modify (f : State -> State) : M unit := fun st => (Ok tt, f st).

(** [try: body except Exception as e: handler e] *)
Definition try_except {A : Type} (body : M A) (handler : Exn -> M A) : M A :=
  fun st =>
    match body st with
    | (Ok a, st') => (Ok a, st')
    | (Raise e, st') => handler e st'
    end.

(** [try: body finally: cleanup]: the cleanup runs whatever the body did;
    the body's outcome stands unless the cleanup itself raises. *)
Definition try_finally {A : Type} (body : M A) (cleanup : M unit) : M A :=
  fun st =>
    match body st with
    | (r, st') =>
        match cleanup st' with
        | (Ok _, st'') => (r, st'')
        | (Raise e, st'') => (Raise e, st'')
        end
    end.

(** [for x in xs: body x] *)
Fixpoint for_each {A : Type} (xs : list A) (body : A -> M unit) : M unit :=
  match xs with
  | [] => ret tt
  | x :: xs' => body x ;; for_each xs' body
  end.

Definition emit (ev : Event) : M unit :=
  modify (with_trace (fun t => t ++ [ev])).

Definition exception (msg : string) : Exn :=
  {| exn_class := PlainException; exn_msg := msg |}.

(** ** Class [YouTubeTranscriber] *)

Definition newline : ascii := "010"%char.

(** The class [[^&\n?#]] of both patterns. *)
Definition id_char (a : ascii) : bool :=
  negb (Ascii.eqb a "&" || Ascii.eqb a newline || Ascii.eqb a "?" || Ascii.eqb a "#").

(** What [.] matches: anything but a line feed. *)
Definition dot (a : ascii) : bool := negb (Ascii.eqb a newline).

(** [(?:youtube\.com\/watch\?v=|youtu\.be\/|youtube\.com\/embed\/)([^&\n?#]+)] *)
Definition pattern1 : Re.regex :=
  Re.Seq (Re.Alt (Re.Lit "youtube.com/watch?v=")
            (Re.Alt (Re.Lit "youtu.be/") (Re.Lit "youtube.com/embed/")))
    (Re.Group (Re.Plus id_char)).

(** [youtube\.com\/watch\?.*v=([^&\n?#]+)] *)
Definition pattern2 : Re.regex :=
  Re.Seq (Re.Lit "youtube.com/watch?")
    (Re.Seq (Re.Star dot) (Re.Seq (Re.Lit "v=") (Re.Group (Re.Plus id_char)))).

Definition patterns : list Re.regex := [pattern1; pattern2].

(** The loop [for pattern in patterns: match = re.search(pattern, url)],
    left at the first match. *)
Fixpoint first_match (ps : list Re.regex) (url : string) : option Re.Match :=
  match ps with
  | [] => None
  | pattern :: ps' =>
      match Re.search pattern url with
      | Some m => Some m
      | None => first_match ps' url
      end
  end.

(** Group 1 takes part in every match of both patterns, so the [""] below
    is never produced. *)
Definition _extract_video_id (url : string) : M string :=
  match first_match patterns url with
  | Some m => ret (default "" (Re.group1 m))
  | None => raise {| exn_class := ValueError; exn_msg := "URL do YouTube inválida" |}
  end.

Definition _common_headers : list (string * string) :=
  [ ("User-Agent", "Mozilla/5.0 (Windows NT 10.0; Win64; x64) AppleWebKit/537.36 (KHTML, like Gecko) Chrome/122.0.0.0 Safari/537.36");
    ("Accept", "text/html,application/xhtml+xml,application/xml;q=0.9,*/*;q=0.8");
    ("Accept-Language", "en-US,en;q=0.9,pt-BR;q=0.8");
    ("DNT", "1");
    ("Connection", "keep-alive");
    ("Upgrade-Insecure-Requests", "1") ].

(** Truth value of an [Optional[str]]: [None] and [""] are falsy. *)
Definition truthy (o : option string) : bool :=
  match o with
  | None => false
  | Some s => negb (String.eqb s "")
  end.

(** The result dictionaries of [process_video]. *)
Inductive Value : Type :=
| VStr (s : string)
| VBool (b : bool).

Fixpoint dict_get (d : list (string * Value)) (key : string) : option Value :=
  match d with
  | [] => None
  | (k, v) :: d' => if String.eqb k key then Some v else dict_get d' key
  end.

Section Methods.

Variable env : Env.

(** *** External calls *)

Definition os_path_exists (path : string) : M bool :=
  st <- get ;; ret (bool_decide (path ∈ files st)).

Definition os_remove (path : string) : M unit :=
  emit (EvRemove path) ;;
  match ext_os_remove env path with
  | Some e => raise e
  | None =>
      present <- os_path_exists path ;;
      if present then modify (with_files (fun fs => fs ∖ {[path]}))
      else raise {| exn_class := FileNotFoundError; exn_msg := path |}
  end.

Definition time_sleep (ms : nat) : M unit := emit (EvSleep ms).

(** [time.sleep(random.uniform(lo, hi))] *)
Definition time_sleep_uniform (lo_ms hi_ms : nat) : M unit :=
  emit (EvSleepUniform lo_ms hi_ms).

(** An external tool writing [output]: on success the file is there; on
    failure it is there when the tool left it behind. *)
Definition run_tool (outcome : ToolOutcome) (output : string) : M unit :=
  match outcome with
  | Done => modify (with_files (fun fs => {[output]} ∪ fs))
  | Failed e leaves_output =>
      (if leaves_output then modify (with_files (fun fs => {[output]} ∪ fs))
       else ret tt) ;;
      raise e
  end.

Definition YouTubeTranscriptApi_get_transcript (video_id : string)
    (languages : list string) : M (list Fragment) :=
  emit (EvGetTranscript video_id languages) ;;
  match ext_get_transcript env video_id languages with
  | inl e => raise e
  | inr transcript => ret transcript
  end.

(** [with yt_dlp.YoutubeDL(ydl_opts) as ydl: ydl.download(urls)] *)
Definition YoutubeDL_download (ydl_opts : YdlOpts) (urls : list string) : M unit :=
  emit (EvDownload ydl_opts urls) ;;
  run_tool (ext_ydl_download env ydl_opts urls) (outtmpl ydl_opts).

(** [subprocess.run(cmd, check=True, capture_output=True)] for an ffmpeg
    command line, whose last argument names the output file. *)
Definition subprocess_run (cmd : list string) : M unit :=
  emit (EvSubprocess cmd) ;;
  run_tool (ext_subprocess_run env cmd) (List.last cmd "").

Definition whisper_load_model (size : string) : M Model :=
  emit (EvLoadModel size) ;;
  match ext_load_model env size with
  | Some e => raise e
  | None =>
      st <- get ;;
      modify (with_models_built (S (models_built st))) ;;
      ret {| model_size := size; model_serial := models_built st |}
  end.

Definition model_transcribe (m : Model) (audio_path language : string) : M string :=
  emit (EvTranscribe m audio_path language) ;;
  match ext_transcribe env m audio_path language with
  | inl e => raise e
  | inr result_text => ret result_text
  end.

(** The chat-completion request; both client versions of the source send
    the same model, messages and [max_tokens]. *)
Definition chat_completions_create (model system_content user_content : string)
    (max_tokens : nat) : M string :=
  emit (EvChat model system_content user_content max_tokens) ;;
  match ext_chat_completion env model system_content user_content max_tokens with
  | inl e => raise e
  | inr content => ret content
  end.

(** *** Methods *)

Definition caption_languages : list string := ["pt"; "pt-BR"; "en"; "es"].

Definition get_youtube_transcript (video_id : string) : M (option string) :=
  try_except
    (transcript <- YouTubeTranscriptApi_get_transcript video_id caption_languages ;;
     let text' := String.concat " " (map text transcript) in
     ret (Some text'))
    (fun e => ret None).

(** The [ydl_opts] of the four strategies. *)
Definition ydl_opts_basic (output_path : string) : YdlOpts :=
  {| outtmpl := output_path; format := "best[height<=720]"; quiet := true;
     http_headers := None; cookiesfrombrowser := None; retries := None;
     fragment_retries := None; extractor_retries := None;
     throttledratelimit := None |}.

Definition ydl_opts_headers (output_path : string) : YdlOpts :=
  {| outtmpl := output_path; format := "best[height<=720]"; quiet := true;
     http_headers := Some _common_headers; cookiesfrombrowser := None;
     retries := None; fragment_retries := None; extractor_retries := None;
     throttledratelimit := None |}.

Definition ydl_opts_browser_cookies (output_path : string) : YdlOpts :=
  {| outtmpl := output_path; format := "best[height<=720]"; quiet := true;
     http_headers := Some _common_headers;
     cookiesfrombrowser := Some ["chrome"; "edge"; "firefox"];
     retries := None; fragment_retries := None; extractor_retries := None;
     throttledratelimit := None |}.

Definition ydl_opts_retries (output_path : string) : YdlOpts :=
  {| outtmpl := output_path; format := "best[height<=720]"; quiet := true;
     http_headers := Some _common_headers; cookiesfrombrowser := None;
     retries := Some 5; fragment_retries := Some 5; extractor_retries := Some 5;
     throttledratelimit := Some (1024 * 512)%N |}.

Definition _dl_basic (url output_path : string) : M unit :=
  let ydl_opts := ydl_opts_basic output_path in
  YoutubeDL_download ydl_opts [url].

Definition _dl_with_headers (url output_path : string) : M unit :=
  let ydl_opts := ydl_opts_headers output_path in
  YoutubeDL_download ydl_opts [url].

Definition _dl_with_browser_cookies (url output_path : string) : M unit :=
  let ydl_opts := ydl_opts_browser_cookies output_path in
  YoutubeDL_download ydl_opts [url].

Definition _dl_with_retries (url output_path : string) : M unit :=
  let ydl_opts := ydl_opts_retries output_path in
  time_sleep_uniform 1000 2500 ;;
  YoutubeDL_download ydl_opts [url].

Definition strategies : list (string -> string -> M unit) :=
  [_dl_basic; _dl_with_headers; _dl_with_browser_cookies; _dl_with_retries].

(** [str(last_error)] for [last_error: Optional[Exception]] *)
Definition str_opt (last_error : option Exn) : string :=
  match last_error with
  | None => "None"
  | Some e => str e
  end.

(** The loop [for idx, strategy in enumerate(strategies, start=1)] from
    index [idx] on; [total] is [len(strategies)]. *)
Fixpoint download_loop (todo : list (string -> string -> M unit)) (idx total : nat)
    (url output_path : string) (last_error : option Exn) : M string :=
  match todo with
  | [] => raise (exception ("Erro ao baixar vídeo: " +:+ str_opt last_error))
  | strategy :: todo' =>
      try_except
        (strategy url output_path ;; ret output_path)
        (fun err =>
           (if idx <? total then time_sleep 1500 else ret tt) ;;
           download_loop todo' (S idx) total url output_path (Some err))
  end.

Definition download_video (url output_path : string) : M string :=
  download_loop strategies 1 (length strategies) url output_path None.

Definition extract_audio_ffmpeg (video_path audio_path : string) : M unit :=
  local_exe <- os_path_exists "ffmpeg.exe" ;;
  let ffmpeg_cmd := if local_exe then "./ffmpeg.exe" else "ffmpeg" in
  let cmd :=
    [ffmpeg_cmd; "-i"; video_path; "-vn"; "-acodec"; "pcm_s16le";
     "-ar"; "16000"; "-ac"; "1"; "-y"; audio_path] in
  try_except (subprocess_run cmd)
    (fun e =>
       match exn_class e with
       | CalledProcessError => raise (exception ("Erro ao executar ffmpeg: " +:+ str e))
       | FileNotFoundError => raise (exception "FFmpeg não encontrado. Instale o FFmpeg.")
       | _ => raise e
       end).

Definition transcribe_audio_whisper (audio_path language : string) : M string :=
  st <- get ;;
  (match whisper_model (self st) with
   | None =>
       m <- whisper_load_model (whisper_model_size (self st)) ;;
       modify (with_self (set_whisper_model (Some m)))
   | Some _ => ret tt
   end) ;;
  try_except
    (st' <- get ;;
     match whisper_model (self st') with
     | Some m => model_transcribe m audio_path language
     | None =>
         raise {| exn_class := OtherError "AttributeError";
                  exn_msg := "'NoneType' object has no attribute 'transcribe'" |}
     end)
    (fun e => raise (exception ("Erro na transcrição: " +:+ str e))).

Definition summary_system_content : string :=
  "Você é um assistente especializado em resumir vídeos de forma clara, concisa e informativa. Mantenha os pontos principais e seja objetivo.".

Definition summary_user_content (text' : string) : string :=
  "Resuma o seguinte texto de um vídeo do YouTube em português, destacando os pontos principais:"
  +:+ String newline (String newline text').

Definition summarize_with_openai (text' : string) (max_tokens : nat) : M string :=
  try_except
    (chat_completions_create "gpt-3.5-turbo" summary_system_content
       (summary_user_content text') max_tokens)
    (fun e => raise (exception ("Erro ao gerar resumo com OpenAI: " +:+ str e))).

(** The [finally] block of [process_video]: best-effort removal of every
    path recorded in [temp_files]. *)
Definition cleanup : M unit :=
  st <- get ;;
  for_each (temp_files st) (fun file_path =>
    try_except
      (present <- os_path_exists file_path ;;
       if present then os_remove file_path else ret tt)
      (fun _ => ret tt)).

(** The block under [if not transcript:] (download, extraction,
    transcription); its value is the new [transcript]. *)
Definition fallback_block (url : string) : M string :=
  video_path <- download_video url "temp_video.mp4" ;;
  modify (with_temp_files (fun l => l ++ [video_path])) ;;
  let audio_path := "temp_audio.wav" in
  extract_audio_ffmpeg video_path audio_path ;;
  modify (with_temp_files (fun l => l ++ [audio_path])) ;;
  transcribe_audio_whisper audio_path "pt".

(** The [try] block of [process_video]. *)
Definition try_block (url video_id : string) : M (list (string * Value)) :=
  transcript <- get_youtube_transcript video_id ;;
  transcript <-
    (if negb (truthy transcript) then fallback_block url
     else ret (default "" transcript)) ;;
  summary <- summarize_with_openai transcript 500 ;;
  st <- get ;;
  ret [ ("video_id", VStr video_id);
        ("transcript", VStr transcript);
        ("summary", VStr summary);
        ("method", VStr (match temp_files st with
                         | [] => "youtube_transcript"
                         | _ :: _ => "whisper"
                         end));
        ("success", VBool true) ].

(** The [except Exception as e] block of [process_video]. *)
Definition except_block (video_id : string) (e : Exn) : M (list (string * Value)) :=
  ret [ ("video_id", VStr video_id);
        ("error", VStr (str e));
        ("success", VBool false) ].

(** [video_id] is extracted before the [try] statement is entered. *)
Definition process_video (url : string) : M (list (string * Value)) :=
  video_id <- _extract_video_id url ;;
  modify (with_temp_files (fun _ => [])) ;;
  try_finally
    (try_except (try_block url video_id) (except_block video_id))
    cleanup.

End Methods.

(** ** Construction *)

(** [YouTubeTranscriber.__init__]: an empty key is refused, no model is
    loaded yet. *)
Definition YouTubeTranscriber_init (openai_api_key' whisper_model_size' : string)
    : Exn + Transcriber :=
  if String.eqb openai_api_key' "" then
    inl {| exn_class := ValueError; exn_msg := "Chave da API OpenAI é obrigatória" |}
  else
    inr {| openai_api_key := openai_api_key';
           whisper_model_size := whisper_model_size';
           whisper_model := None |}.

Definition fresh_state (t : Transcriber) (fs : gset string) : State :=
  {| self := t; files := fs; models_built := 0; trace := []; temp_files := [] |}.

(** * The callers of the transcriber *)

(** ** [app.py] *)

(** [sub not in s] on strings. *)
Fixpoint str_not_in (sub s : string) : bool :=
  match Re.strip_prefix sub s with
  | Some _ => false
  | None =>
      match s with
      | EmptyString => true
      | String _ s' => str_not_in sub s'
      end
  end.

(** The test of the main loop that refuses an address before
    [process_video] is called:
    ['youtube.com' not in video_url and 'youtu.be' not in video_url]. *)
Definition app_refuses (video_url : string) : bool :=
  str_not_in "youtube.com" video_url && str_not_in "youtu.be" video_url.

(** ** Reading result dictionaries *)

(** [str(KeyError(key))] shows the key in quotes. *)
Definition KeyError (key : string) : Exn :=
  {| exn_class := OtherError "KeyError"; exn_msg := "'" +:+ key +:+ "'" |}.

(** [d[key]] *)
Definition dict_item (d : list (string * Value)) (key : string) : Result Value :=
  match dict_get d key with
  | Some v => Ok v
  | None => Raise (KeyError key)
  end.

(** [d.get(key, default)] *)
Definition dict_get_default (d : list (string * Value)) (key : string) (dflt : Value)
    : Value :=
  match dict_get d key with
  | Some v => v
  | None => dflt
  end.

(** Truth value of a dictionary entry. *)
Definition py_truth (v : Value) : bool :=
  match v with
  | VBool b => b
  | VStr s => negb (String.eqb s "")
  end.

(** [str(v)], as an f-string formats an entry. *)
Definition py_str (v : Value) : string :=
  match v with
  | VStr s => s
  | VBool true => "True"
  | VBool false => "False"
  end.

(** ** [save_results] *)

(** [s * n] *)
Fixpoint str_mul (s : string) (n : nat) : string :=
  match n with
  | O => EmptyString
  | S n' => s +:+ str_mul s n'
  end.

Definition nl : string := String newline EmptyString.

(** [f.write(v)]: the argument must be a [str]. *)
Definition write_arg (v : Value) : Result string :=
  match v with
  | VStr s => Ok s
  | VBool _ =>
      Raise {| exn_class := OtherError "TypeError";
               exn_msg := "write() argument must be str, not bool" |}
  end.

(** The writes of the [with open(...)] block, in order, as one text; a
    missing key or a non-string entry stops them. *)
Definition save_results_text (results : list (string * Value)) : Result string :=
  match dict_item results "video_id" with
  | Raise e => Raise e
  | Ok video_id =>
  match dict_item results "method" with
  | Raise e => Raise e
  | Ok method =>
  match dict_item results "transcript" with
  | Raise e => Raise e
  | Ok transcript =>
  match write_arg transcript with
  | Raise e => Raise e
  | Ok transcript_text =>
  match dict_item results "summary" with
  | Raise e => Raise e
  | Ok summary =>
  match write_arg summary with
  | Raise e => Raise e
  | Ok summary_text =>
      Ok (str_mul "=" 60 +:+ nl
          +:+ "RESUMO DE VÍDEO DO YOUTUBE" +:+ nl
          +:+ str_mul "=" 60 +:+ nl +:+ nl
          +:+ "ID do Vídeo: " +:+ py_str video_id +:+ nl
          +:+ "Método: " +:+ py_str method +:+ nl +:+ nl
          +:+ "TRANSCRIÇÃO COMPLETA:" +:+ nl
          +:+ str_mul "-" 40 +:+ nl
          +:+ transcript_text
          +:+ nl +:+ nl
          +:+ "RESUMO:" +:+ nl
          +:+ str_mul "-" 40 +:+ nl
          +:+ summary_text
          +:+ nl +:+ nl)
  end end end end end end.

(** [save_results(results, output_file)].  [open_error] is what
    [open(output_file, 'w')] answers ([None]: the file is opened, and so
    created).  The value is the text written, [None] when the method returns
    before opening the file. *)
Definition save_results (open_error : option Exn) (results : list (string * Value))
    (output_file : string) : M (option string) :=
  match dict_item results "success" with
  | Raise e => raise e
  | Ok success =>
      if negb (py_truth success) then ret None
      else
        match open_error with
        | Some e => raise e
        | None =>
            modify (with_files (fun fs => {[output_file]} ∪ fs)) ;;
            match save_results_text results with
            | Raise e => raise e
            | Ok content => ret (Some content)
            end
        end
  end.

(** ** [main.py] *)

Module MainPy.

(** The body of a [POST /transcribe] request. *)
Record VideoRequest : Type := {
  url : string;
  whisper_model_size : option string;
  language : option string;
  max_tokens : option nat
}.

Record VideoResponse : Type := {
  success : bool;
  video_id : string;
  transcript : option string;
  summary : option string;
  method : option string;
  processing_time : option Z;
  error : option string
}.

(** A reference to the one transcriber object, whose attributes are the
    [self] of the process state. *)
Inductive ObjRef : Type := TheTranscriber.

(** The module-level [transcriber_instance] and the rest of the process. *)
Record Server : Type := {
  transcriber_instance : option ObjRef;
  process : State
}.

(** Validation of a [str] field of [VideoResponse]. *)
Definition str_field (name : string) (v : Value) : Result string :=
  match v with
  | VStr s => Ok s
  | VBool _ =>
      Raise {| exn_class := OtherError "ValidationError";
               exn_msg := name +:+ ": str type expected" |}
  end.

Section Handlers.

(** [str(HTTPException(status_code, detail))], which depends on the version
    of the web framework. *)
Variable HTTPException_str : nat -> string -> string.

Definition HTTPException (status_code : nat) (detail : string) : Exn :=
  {| exn_class := OtherError "HTTPException";
     exn_msg := HTTPException_str status_code detail |}.

(** [get_transcriber()]; [openai_key] is [os.getenv('OPENAI_API_KEY')]. *)
Definition get_transcriber (openai_key : option string) (sv : Server)
    : Result ObjRef * Server :=
  match transcriber_instance sv with
  | Some r => (Ok r, sv)
  | None =>
      if negb (truthy openai_key) then
        (Raise (HTTPException 500 "Chave da API OpenAI não configurada"), sv)
      else
        match YouTubeTranscriber_init (default "" openai_key) "base" with
        | inl e => (Raise e, sv)
        | inr t =>
            (Ok TheTranscriber,
             {| transcriber_instance := Some TheTranscriber;
                process := with_self (fun _ => t) (process sv) |})
        end
  end.

(** The [if results["success"]: ... else: ...] of the handler. *)
Definition response_of (results : list (string * Value)) (elapsed : Z)
    : Result VideoResponse :=
  match dict_item results "success" with
  | Raise e => Raise e
  | Ok flag =>
      if py_truth flag then
        match dict_item results "video_id" with
        | Raise e => Raise e
        | Ok v_id =>
        match dict_item results "transcript" with
        | Raise e => Raise e
        | Ok v_transcript =>
        match dict_item results "summary" with
        | Raise e => Raise e
        | Ok v_summary =>
        match dict_item results "method" with
        | Raise e => Raise e
        | Ok v_method =>
        match str_field "video_id" v_id, str_field "transcript" v_transcript,
              str_field "summary" v_summary, str_field "method" v_method with
        | Ok s_id, Ok s_transcript, Ok s_summary, Ok s_method =>
            Ok {| success := true; video_id := s_id;
                  transcript := Some s_transcript; summary := Some s_summary;
                  method := Some s_method; processing_time := Some elapsed;
                  error := None |}
        | Raise e, _, _, _ => Raise e
        | _, Raise e, _, _ => Raise e
        | _, _, Raise e, _ => Raise e
        | _, _, _, Raise e => Raise e
        end end end end end
      else
        match str_field "video_id" (dict_get_default results "video_id" (VStr "unknown")),
              str_field "error" (dict_get_default results "error" (VStr "Erro desconhecido"))
        with
        | Ok s_id, Ok s_error =>
            Ok {| success := false; video_id := s_id;
                  transcript := None; summary := None; method := None;
                  processing_time := Some elapsed; error := Some s_error |}
        | Raise e, _ => Raise e
        | _, Raise e => Raise e
        end
  end.

(** The response of the [except Exception as e] block. *)
Definition internal_error (e : Exn) (elapsed : Z) : VideoResponse :=
  {| success := false; video_id := "unknown";
     transcript := None; summary := None; method := None;
     processing_time := Some elapsed;
     error := Some ("Erro interno: " +:+ str e) |}.

(** [POST /transcribe].  [start_time] and [end_time] are the two readings of
    [time.time()], in milliseconds. *)
Definition transcribe_video (env : Env) (openai_key : option string)
    (request : VideoRequest) (start_time end_time : Z) (sv : Server)
    : VideoResponse * Server :=
  let elapsed := (end_time - start_time)%Z in
  match get_transcriber openai_key sv with
  | (Raise e, sv1) => (internal_error e elapsed, sv1)
  | (Ok _, sv1) =>
      match process_video env (url request) (process sv1) with
      | (Raise e, st') =>
          (internal_error e elapsed,
           {| transcriber_instance := transcriber_instance sv1; process := st' |})
      | (Ok results, st') =>
          (match response_of results elapsed with
           | Ok response => response
           | Raise e => internal_error e elapsed
           end,
           {| transcriber_instance := transcriber_instance sv1; process := st' |})
      end
  end.

End Handlers.

End MainPy.

(** * Vocabulary of the statements *)

Fixpoint all_chars (c : ascii -> bool) (s : string) : bool :=
  match s with
  | EmptyString => true
  | String a s' => c a && all_chars c s'
  end.

(** The input ends here as far as class [c] is concerned. *)
Definition stops (c : ascii -> bool) (rest : string) : Prop :=
  match rest with
  | EmptyString => True
  | String a _ => c a = false
  end.

(** Every alternative of the first pattern starts with the letter y. *)
Definition not_y (a : ascii) : bool := negb (Ascii.eqb "y" a).

(** A well-formed identifier: a non-empty run of [[^&\n?#]]. *)
Definition valid_id (id : string) : Prop :=
  id <> EmptyString /\ all_chars id_char id = true.

(** The three heads after which the first pattern captures. *)
Definition id_heads : list string :=
  ["youtube.com/watch?v="; "youtu.be/"; "youtube.com/embed/"].

(** The long, short-link and embed forms of a video address. *)
Definition long_url (id : string) : string := "https://www.youtube.com/watch?v=" +:+ id.

Definition short_url (id : string) : string := "https://youtu.be/" +:+ id.

Definition embed_url (id : string) : string := "https://www.youtube.com/embed/" +:+ id.

(** [keeps I m]: whatever [m] returns or raises, the state it leaves is
    related by [I] to the state it started from. *)
Definition keeps {A : Type} (I : relation State) (m : M A) : Prop :=
  forall st, I st (snd (m st)).

Definition same_temp_files : relation State :=
  fun st st' => temp_files st' = temp_files st.

Definition trace_grows : relation State :=
  fun st st' => trace st `prefix_of` trace st'.

(** The download calls of a trace, in order. *)
Fixpoint downloads_of (t : list Event) : list YdlOpts :=
  match t with
  | [] => []
  | EvDownload opts _ :: t' => opts :: downloads_of t'
  | _ :: t' => downloads_of t'
  end.

(** The options of the four strategies in the order of [strategies]. *)
Definition attempts (output_path : string) : list YdlOpts :=
  [ydl_opts_basic output_path; ydl_opts_headers output_path;
   ydl_opts_browser_cookies output_path; ydl_opts_retries output_path].

(** *** Sample worlds for the concrete runs *)

Definition bot_wall : Exn :=
  {| exn_class := OtherError "DownloadError";
     exn_msg := "Sign in to confirm you are not a bot" |}.

Definition no_captions : Exn :=
  {| exn_class := OtherError "TranscriptsDisabled";
     exn_msg := "Subtitles are disabled for this video" |}.

Definition locked_file : Exn :=
  {| exn_class := OtherError "PermissionError";
     exn_msg := "[WinError 32] The process cannot access the file" |}.

(** No captions; every tool and service works. *)
Definition env_speech : Env :=
  {| ext_get_transcript := fun _ _ => inl no_captions;
     ext_ydl_download := fun _ _ => Done;
     ext_subprocess_run := fun _ => Done;
     ext_load_model := fun _ => None;
     ext_transcribe := fun _ _ _ => inr "spoken words";
     ext_chat_completion := fun _ _ _ _ => inr "a summary";
     ext_os_remove := fun _ => None |}.

(** As [env_speech], with the caption service answering [captions]. *)
Definition env_captions (captions : Exn + list Fragment) : Env :=
  {| ext_get_transcript := fun _ _ => captions;
     ext_ydl_download := ext_ydl_download env_speech;
     ext_subprocess_run := ext_subprocess_run env_speech;
     ext_load_model := ext_load_model env_speech;
     ext_transcribe := ext_transcribe env_speech;
     ext_chat_completion := ext_chat_completion env_speech;
     ext_os_remove := ext_os_remove env_speech |}.

(** As [env_speech], with the download answering [dl]. *)
Definition env_download (dl : YdlOpts -> ToolOutcome) : Env :=
  {| ext_get_transcript := ext_get_transcript env_speech;
     ext_ydl_download := fun opts _ => dl opts;
     ext_subprocess_run := ext_subprocess_run env_speech;
     ext_load_model := ext_load_model env_speech;
     ext_transcribe := ext_transcribe env_speech;
     ext_chat_completion := ext_chat_completion env_speech;
     ext_os_remove := ext_os_remove env_speech |}.

(** As [env_speech], but the downloaded video cannot be removed. *)
Definition env_locked_video : Env :=
  {| ext_get_transcript := ext_get_transcript env_speech;
     ext_ydl_download := ext_ydl_download env_speech;
     ext_subprocess_run := ext_subprocess_run env_speech;
     ext_load_model := ext_load_model env_speech;
     ext_transcribe := ext_transcribe env_speech;
     ext_chat_completion := ext_chat_completion env_speech;
     ext_os_remove := fun path =>
       if String.eqb path "temp_video.mp4" then Some locked_file else None |}.

(** Plain requests are blocked, requests with browser headers pass. *)
Definition headers_pass (opts : YdlOpts) : ToolOutcome :=
  match http_headers opts with
  | None => Failed bot_wall false
  | Some _ => Done
  end.

(** Every request is blocked; the message tells the strategy. *)
Definition all_blocked (opts : YdlOpts) : ToolOutcome :=
  match http_headers opts, cookiesfrombrowser opts, retries opts with
  | None, _, _ => Failed (exception "basic blocked") false
  | Some _, Some _, _ => Failed (exception "cookies blocked") false
  | Some _, None, None => Failed (exception "headers blocked") false
  | Some _, None, Some _ => Failed (exception "retries blocked") false
  end.

Definition sample_transcriber : Transcriber :=
  {| openai_api_key := "sk-test"; whisper_model_size := "base"; whisper_model := None |}.

Definition sample_state : State := fresh_state sample_transcriber ∅.

(** *** Reading a run of [process_video] *)

(** The identifier the patterns find in [url], if any. *)
Definition video_id_of (url : string) : option string :=
  match first_match patterns url with
  | Some m => Some (default "" (Re.group1 m))
  | None => None
  end.

(** What [get_youtube_transcript] hands to [process_video]. *)
Definition caption_text (env : Env) (video_id : string) : option string :=
  match ext_get_transcript env video_id caption_languages with
  | inl _ => None
  | inr transcript => Some (String.concat " " (map text transcript))
  end.

(** The dictionary built by the [except] block. *)
Definition failure_dict (video_id : string) (e : Exn) : list (string * Value) :=
  [ ("video_id", VStr video_id); ("error", VStr (str e)); ("success", VBool false) ].

(** The dictionary a run returned ([[]] when it raised instead). *)
Definition returned {A : Type} (run : Result (list A) * State) : list A :=
  match fst run with
  | Ok d => d
  | Raise _ => []
  end.

(** [env] with a caption service that always fails with [e]. *)
Definition without_captions (e : Exn) (env : Env) : Env :=
  {| ext_get_transcript := fun _ _ => inl e;
     ext_ydl_download := ext_ydl_download env;
     ext_subprocess_run := ext_subprocess_run env;
     ext_load_model := ext_load_model env;
     ext_transcribe := ext_transcribe env;
     ext_chat_completion := ext_chat_completion env;
     ext_os_remove := ext_os_remove env |}.

(** A series of [transcribe_audio_whisper] calls on one transcriber, each
    in the world of its moment. *)
Fixpoint transcribe_calls (calls : list (Env * string * string)) (st : State) : State :=
  match calls with
  | [] => st
  | (env, audio_path, language) :: calls' =>
      transcribe_calls calls' (snd (transcribe_audio_whisper env audio_path language st))
  end.

(** The model loads requested in a trace. *)
Fixpoint loads_of (t : list Event) : list string :=
  match t with
  | [] => []
  | EvLoadModel size :: t' => size :: loads_of t'
  | _ :: t' => loads_of t'
  end.

(** *** Concrete runs *)

(** Speech path; [os.remove] refuses the downloaded video. *)
Definition run_locked_video : Result (list (string * Value)) * State :=
  process_video env_locked_video "https://www.youtube.com/watch?v=abc123" sample_state.

(** The caption service answers with an empty list of fragments. *)
Definition run_empty_captions : Result (list (string * Value)) * State :=
  process_video (env_captions (inr [])) "https://www.youtube.com/watch?v=abc123"
    sample_state.

(** Captions found. *)
Definition run_captions : Result (list (string * Value)) * State :=
  process_video
    (env_captions (inr [ {| text := "hello"; start_ms := 0; duration_ms := 1200 |};
                         {| text := "world"; start_ms := 1200; duration_ms := 900 |} ]))
    "https://www.youtube.com/watch?v=abc123" sample_state.

(** Two runs on different videos, both through the speech path. *)
Definition run_first : Result (list (string * Value)) * State :=
  process_video env_speech "https://youtu.be/abc123" sample_state.

Definition run_second : Result (list (string * Value)) * State :=
  process_video env_speech "https://youtu.be/xyz789" sample_state.

(** * Further vocabulary *)

(** The object and the count of models built are as they were. *)
Definition same_object : relation State :=
  fun st st' => self st' = self st /\ models_built st' = models_built st.

(** Outside the paths of [P] the disk is as it was. *)
Definition outside (P : gset string) : relation State :=
  fun st st' => forall p, p ∉ P -> (p ∈ files st' <-> p ∈ files st).


(** The world of [run_captions]. *)
Definition env_hello : Env :=
  env_captions (inr [ {| text := "hello"; start_ms := 0; duration_ms := 1200 |};
                      {| text := "world"; start_ms := 1200; duration_ms := 900 |} ]).


(** As [env_speech], but ffmpeg fails after having started its output. *)
Definition env_ffmpeg_breaks : Env :=
  {| ext_get_transcript := ext_get_transcript env_speech;
     ext_ydl_download := ext_ydl_download env_speech;
     ext_subprocess_run := fun _ =>
       Failed {| exn_class := CalledProcessError;
                 exn_msg := "Command returned non-zero exit status 1." |} true;
     ext_load_model := ext_load_model env_speech;
     ext_transcribe := ext_transcribe env_speech;
     ext_chat_completion := ext_chat_completion env_speech;
     ext_os_remove := ext_os_remove env_speech |}.

(** As [env_speech], but the Whisper model cannot be loaded. *)
Definition env_no_model : Env :=
  {| ext_get_transcript := ext_get_transcript env_speech;
     ext_ydl_download := ext_ydl_download env_speech;
     ext_subprocess_run := ext_subprocess_run env_speech;
     ext_load_model := fun _ =>
       Some {| exn_class := OtherError "RuntimeError"; exn_msg := "out of memory" |};
     ext_transcribe := ext_transcribe env_speech;
     ext_chat_completion := ext_chat_completion env_speech;
     ext_os_remove := ext_os_remove env_speech |}.

(** As [env_speech], but the transcription itself fails. *)
Definition env_bad_audio : Env :=
  {| ext_get_transcript := ext_get_transcript env_speech;
     ext_ydl_download := ext_ydl_download env_speech;
     ext_subprocess_run := ext_subprocess_run env_speech;
     ext_load_model := ext_load_model env_speech;
     ext_transcribe := fun _ _ _ =>
       inl {| exn_class := OtherError "RuntimeError"; exn_msg := "corrupt audio" |};
     ext_chat_completion := ext_chat_completion env_speech;
     ext_os_remove := ext_os_remove env_speech |}.

(** A transcriber that already holds a model. *)
Definition loaded_state : State :=
  snd (transcribe_audio_whisper env_speech "first.wav" "pt" sample_state).

(** No download call was added to the trace. *)
Definition same_downloads : relation State :=
  fun st st' => downloads_of (trace st') = downloads_of (trace st).

(** [s] begins with [l]. *)
Definition starts_with (l s : string) : bool :=
  match Re.strip_prefix l s with
  | Some _ => true
  | None => false
  end.

(** The continuation [k] rejects [s] and every later suffix of [s]. *)
Fixpoint fails_on_suffixes {R : Type} (k : string -> string -> option R) (s : string) : Prop :=
  (forall m, k m s = None) /\
  match s with
  | EmptyString => True
  | String _ s' => fails_on_suffixes k s'
  end.

(** A series of [POST /transcribe] requests served one after the other by
    one server process, each in the world of its moment. *)
Fixpoint serve (http_str : nat -> string -> string)
    (requests : list (Env * option string * MainPy.VideoRequest * Z * Z))
    (sv : MainPy.Server) : list MainPy.VideoResponse * MainPy.Server :=
  match requests with
  | [] => ([], sv)
  | (env, openai_key, request, start_time, end_time) :: requests' =>
      let '(response, sv1) :=
        MainPy.transcribe_video http_str env openai_key request start_time end_time sv in
      let '(responses, sv2) := serve http_str requests' sv1 in
      (response :: responses, sv2)
  end.

(** How many models the process may still come to hold in all: those built
    so far, and one more as long as the transcriber holds none. *)
Definition build_budget (st : State) : nat :=
  models_built st + match whisper_model (self st) with Some _ => 0 | None => 1 end.

Definition within_budget : relation State :=
  fun st st' => build_budget st' <= build_budget st.

(** A server process that has just started. *)
Definition new_server : MainPy.Server :=
  {| MainPy.transcriber_instance := None; MainPy.process := sample_state |}.

Definition request_for (url : string) : MainPy.VideoRequest :=
  {| MainPy.url := url; MainPy.whisper_model_size := Some "base";
     MainPy.language := Some "pt"; MainPy.max_tokens := Some 500 |}.

(** One way a framework may print its exception. *)
Definition http_str_colon (status_code : nat) (detail : string) : string :=
  (if Nat.eqb status_code 500 then "500" else "?") +:+ ": " +:+ detail.

(** What the handlers keep true of a server process: no model is built
    before the transcriber exists, and afterwards the budget is one. *)
Definition server_invariant (sv : MainPy.Server) : Prop :=
  match MainPy.transcriber_instance sv with
  | None => models_built (MainPy.process sv) = 0
  | Some _ => build_budget (MainPy.process sv) <= 1
  end.

(** A server process whose transcriber already exists. *)
Definition running_server : MainPy.Server :=
  {| MainPy.transcriber_instance := Some MainPy.TheTranscriber;
     MainPy.process := sample_state |}.

(** The ffmpeg command line of [extract_audio_ffmpeg] on a disk [fs]. *)
Definition ffmpeg_command (fs : gset string) (video_path audio_path : string)
    : list string :=
  [ (if bool_decide ("ffmpeg.exe" ∈ fs) then "./ffmpeg.exe" else "ffmpeg");
    "-i"; video_path; "-vn"; "-acodec"; "pcm_s16le";
    "-ar"; "16000"; "-ac"; "1"; "-y"; audio_path ].

(** * Properties *)

(** ** Facts about the matcher *)

#[local] Arguments String.append !_ _ /.

Lemma append_assoc_char (acc : string) (a : ascii) (s : string) :
  (acc +:+ String a EmptyString) +:+ s = acc +:+ String a s.
Proof. induction acc as [|b acc IH]; cbn; [done | by f_equal]. Qed.

Lemma append_empty_r (s : string) : s +:+ EmptyString = s.
Proof. induction s as [|a s IH]; cbn; [done | by f_equal]. Qed.

Lemma strip_prefix_app (l s : string) : Re.strip_prefix l (l +:+ s) = Some s.
Proof.
  induction l as [|a l IH]; simpl; [done|].
  by rewrite Ascii.eqb_refl.
Qed.

Lemma strip_prefix_head (a b : ascii) (l s : string) :
  Ascii.eqb a b = false -> Re.strip_prefix (String a l) (String b s) = None.
Proof. intros H. simpl. by rewrite H. Qed.

(** A greedy class swallows a whole run of its characters when the input
    stops there and the rest of the pattern accepts what follows. *)
Lemma greedy_run {R : Type} (c : ascii -> bool) (s rest acc : string)
    (k : string -> string -> option R) (r : R) :
  all_chars c s = true ->
  stops c rest ->
  k (acc +:+ s) rest = Some r ->
  Re.greedy c acc (s +:+ rest) k = Some r.
Proof.
  intros Hall Hstop. revert acc.
  induction s as [|a s IH]; intros acc Hk; simpl in *.
  - rewrite append_empty_r in Hk.
    destruct rest as [|b rest]; simpl in *; [done|].
    by rewrite Hstop.
  - apply andb_prop in Hall as [Ha Hs]. rewrite Ha.
    rewrite (IH Hs (acc +:+ String a EmptyString)); [done|].
    by rewrite append_assoc_char.
Qed.

Lemma pattern1_skips (a : ascii) (s : string) :
  not_y a = true ->
  Re.search (pattern1) (String a s)
  = Re.search (pattern1) s.
Proof.
  intros Hy. apply negb_true_iff in Hy.
  cbn [pattern1 Re.search Re.match_here Re.rmatch].
  by rewrite !(strip_prefix_head _ _ _ _ Hy).
Qed.

Lemma pattern1_skips_prefix (pre s : string) :
  all_chars not_y pre = true ->
  Re.search (pattern1) (pre +:+ s)
  = Re.search (pattern1) s.
Proof.
  induction pre as [|a pre IH]; cbn [String.append all_chars]; [done|].
  intros [Ha Hpre]%andb_prop.
  rewrite pattern1_skips; auto.
Qed.

Lemma rmatch_seq {R : Type} (r1 r2 : Re.regex) (s : string) (cap : option string)
    (k : string -> string -> option string -> option R) :
  Re.rmatch (Re.Seq r1 r2) s cap k
  = Re.rmatch r1 s cap (fun m1 rest1 cap1 =>
      Re.rmatch r2 rest1 cap1 (fun m2 rest2 cap2 => k (m1 +:+ m2) rest2 cap2)).
Proof. reflexivity. Qed.

Lemma rmatch_alt {R : Type} (r1 r2 : Re.regex) (s : string) (cap : option string)
    (k : string -> string -> option string -> option R) :
  Re.rmatch (Re.Alt r1 r2) s cap k
  = match Re.rmatch r1 s cap k with
    | Some x => Some x
    | None => Re.rmatch r2 s cap k
    end.
Proof. reflexivity. Qed.

Lemma rmatch_lit {R : Type} (l s : string) (cap : option string)
    (k : string -> string -> option string -> option R) :
  Re.rmatch (Re.Lit l) s cap k
  = match Re.strip_prefix l s with
    | Some rest => k l rest cap
    | None => None
    end.
Proof. reflexivity. Qed.

(** The group [([^&\n?#]+)] captures a whole identifier. *)
Lemma rmatch_id_group {R : Type} (id rest : string) (cap : option string)
    (k : string -> string -> option string -> option R) (r : R) :
  id <> EmptyString ->
  all_chars id_char id = true ->
  stops id_char rest ->
  k id rest (Some id) = Some r ->
  Re.rmatch (Re.Group (Re.Plus id_char)) (id +:+ rest) cap k = Some r.
Proof.
  intros Hne Hall Hstop Hk.
  destruct id as [|a id]; [done|].
  cbn [all_chars] in Hall. apply andb_prop in Hall as [Ha Hid].
  cbn [Re.rmatch String.append]. rewrite Ha.
  by apply (greedy_run id_char id rest (String a EmptyString)).
Qed.

Lemma watch_is_not_short (s : string) :
  Re.strip_prefix "youtube.com/watch?v=" ("youtu.be/" +:+ s) = None.
Proof. reflexivity. Qed.

Lemma watch_is_not_embed (s : string) :
  Re.strip_prefix "youtube.com/watch?v=" ("youtube.com/embed/" +:+ s) = None.
Proof. reflexivity. Qed.

Lemma short_is_not_embed (s : string) :
  Re.strip_prefix "youtu.be/" ("youtube.com/embed/" +:+ s) = None.
Proof. reflexivity. Qed.

Lemma pattern1_captures (head id rest : string) :
  head ∈ id_heads ->
  valid_id id ->
  stops id_char rest ->
  Re.match_here pattern1 (head +:+ id +:+ rest)
  = Some {| Re.group0 := head +:+ id; Re.group1 := Some id |}.
Proof.
  intros Hhead [Hne Hall] Hstop.
  unfold Re.match_here, pattern1.
  rewrite rmatch_seq, !rmatch_alt, !rmatch_lit.
  unfold id_heads in Hhead.
  apply elem_of_cons in Hhead as [->|Hhead];
    [|apply elem_of_cons in Hhead as [->|Hhead];
      [|apply elem_of_cons in Hhead as [->|Hhead]; [|by apply elem_of_nil in Hhead]]].
  - rewrite strip_prefix_app.
    by rewrite (rmatch_id_group id rest _ _ _ Hne Hall Hstop eq_refl).
  - rewrite watch_is_not_short, strip_prefix_app.
    by rewrite (rmatch_id_group id rest _ _ _ Hne Hall Hstop eq_refl).
  - rewrite watch_is_not_embed, short_is_not_embed, strip_prefix_app.
    by rewrite (rmatch_id_group id rest _ _ _ Hne Hall Hstop eq_refl).
Qed.

(** The identifier is found behind any text free of the letter y, and up to
    the first delimiter that follows it. *)
Lemma extract_after_prefix (pre head id rest : string) (st : State) :
  all_chars not_y pre = true ->
  head ∈ id_heads ->
  valid_id id ->
  stops id_char rest ->
  _extract_video_id (pre +:+ head +:+ id +:+ rest) st = (Ok id, st).
Proof.
  intros Hpre Hhead Hid Hstop.
  unfold _extract_video_id, patterns, first_match.
  rewrite pattern1_skips_prefix by done.
  assert (Hs : Re.search pattern1 (head +:+ id +:+ rest)
               = Some {| Re.group0 := head +:+ id; Re.group1 := Some id |}).
  { destruct (head +:+ id +:+ rest) eqn:E; cbn [Re.search];
      rewrite <- E, pattern1_captures; done. }
  by rewrite Hs.
Qed.

(** C7: the long watch address, the short link and the embed address built
    from one well-formed identifier all yield that identifier. *)
Theorem extract_video_id_same_for_all_forms (id : string) (st : State) :
  valid_id id ->
  _extract_video_id (long_url id) st = (Ok id, st) /\
  _extract_video_id (short_url id) st = (Ok id, st) /\
  _extract_video_id (embed_url id) st = (Ok id, st).
Proof.
  intros Hid.
  assert (Hl : long_url id = "https://www." +:+ "youtube.com/watch?v=" +:+ id +:+ "")
    by (unfold long_url; rewrite append_empty_r; reflexivity).
  assert (Hs : short_url id = "https://" +:+ "youtu.be/" +:+ id +:+ "")
    by (unfold short_url; rewrite append_empty_r; reflexivity).
  assert (He : embed_url id = "https://www." +:+ "youtube.com/embed/" +:+ id +:+ "")
    by (unfold embed_url; rewrite append_empty_r; reflexivity).
  rewrite Hl, Hs, He.
  repeat split; apply extract_after_prefix;
    first [reflexivity | exact Hid | exact I | unfold id_heads; set_solver].
Qed.

Lemma extract_video_id_same_witness :
  valid_id "abc123" /\
  let st := fresh_state
              {| openai_api_key := "key"; whisper_model_size := "base";
                 whisper_model := None |} ∅ in
  _extract_video_id (long_url "abc123") st = (Ok "abc123", st) /\
  _extract_video_id (short_url "abc123") st = (Ok "abc123", st) /\
  _extract_video_id (embed_url "abc123") st = (Ok "abc123", st).
Proof.
  assert (H : valid_id "abc123") by (split; [discriminate | reflexivity]).
  split; [exact H|].
  intros st. exact (extract_video_id_same_for_all_forms "abc123" st H).
Defined.

(** ** Reasoning about the monad *)

Section StepRelation.

Variable I : relation State.
Context `{!PreOrder I}.

Lemma keeps_ret {A : Type} (a : A) : keeps I (ret a).
Proof. intros st. simpl. reflexivity. Qed.

Lemma keeps_raise {A : Type} (e : Exn) : keeps I (@raise A e).
Proof. intros st. simpl. reflexivity. Qed.

Lemma keeps_get : keeps I get.
Proof. intros st. simpl. reflexivity. Qed.

Lemma keeps_modify (f : State -> State) :
  (forall st, I st (f st)) -> keeps I (modify f).
Proof. intros H st. apply H. Qed.

Lemma keeps_bind {A B : Type} (m : M A) (f : A -> M B) :
  keeps I m -> (forall a, keeps I (f a)) -> keeps I (bind m f).
Proof.
  intros Hm Hf st. unfold bind. specialize (Hm st).
  destruct (m st) as [[a|e] st1]; simpl in *; [|done].
  etrans; [exact Hm | apply Hf].
Qed.

Lemma keeps_try_except {A : Type} (body : M A) (handler : Exn -> M A) :
  keeps I body -> (forall e, keeps I (handler e)) -> keeps I (try_except body handler).
Proof.
  intros Hm Hh st. unfold try_except. specialize (Hm st).
  destruct (body st) as [[a|e] st1]; simpl in *; [done|].
  etrans; [exact Hm | apply Hh].
Qed.

Lemma keeps_try_finally {A : Type} (body : M A) (fin : M unit) :
  keeps I body -> keeps I fin -> keeps I (try_finally body fin).
Proof.
  intros Hm Hf st. unfold try_finally. specialize (Hm st).
  destruct (body st) as [r st1]. specialize (Hf st1).
  destruct (fin st1) as [[[]|e] st2]; simpl in *; etrans; eauto.
Qed.

Lemma keeps_for_each {A : Type} (xs : list A) (body : A -> M unit) :
  (forall x, keeps I (body x)) -> keeps I (for_each xs body).
Proof.
  intros Hb. induction xs as [|x xs IH]; simpl.
  - apply keeps_ret.
  - apply keeps_bind; auto.
Qed.

End StepRelation.

#[local] Instance same_temp_files_preorder : PreOrder same_temp_files.
Proof. split; unfold same_temp_files; [by intros ? | by intros ? ? ? -> ->]. Qed.

#[local] Instance trace_grows_preorder : PreOrder trace_grows.
Proof.
  split; unfold trace_grows; [by intros ? | intros ? ? ? H1 H2; by etrans].
Qed.

Create HintDb methods discriminated.
#[local] Hint Unfold os_path_exists os_remove time_sleep time_sleep_uniform run_tool
  YouTubeTranscriptApi_get_transcript YoutubeDL_download subprocess_run
  whisper_load_model model_transcribe chat_completions_create emit
  get_youtube_transcript _dl_basic _dl_with_headers _dl_with_browser_cookies
  _dl_with_retries download_video strategies extract_audio_ffmpeg
  transcribe_audio_whisper summarize_with_openai cleanup : methods.

Ltac keeps_side :=
  lazymatch goal with
  | |- PreOrder _ => apply _
  | |- forall _, _ => intros ?
  | |- _ => idtac
  end.

(** One structural step on a [keeps] goal. *)
Ltac keeps_step :=
  match goal with
  | |- keeps _ (bind _ _) => apply keeps_bind; keeps_side
  | |- keeps _ (try_except _ _) => apply keeps_try_except; keeps_side
  | |- keeps _ (try_finally _ _) => apply keeps_try_finally; keeps_side
  | |- keeps _ (for_each _ _) => apply keeps_for_each; keeps_side
  | |- keeps _ (ret _) => apply keeps_ret; keeps_side
  | |- keeps _ (raise _) => apply keeps_raise; keeps_side
  | |- keeps _ get => apply keeps_get; keeps_side
  | |- keeps _ (modify _) => apply keeps_modify; keeps_side
  | |- keeps _ (match ?x with _ => _ end) => destruct x
  end.

Ltac keeps_auto :=
  repeat first
    [ keeps_step
    | progress autounfold with methods
    | progress cbv beta zeta
    | progress cbn [download_loop length] ].

Section MethodsKeep.

Variable env : Env.

Lemma trace_grows_emit (f : list Event) (st : State) :
  trace_grows st (with_trace (fun t => t ++ f) st).
Proof. unfold trace_grows. simpl. by apply prefix_app_r. Qed.

(** Nothing but [process_video] itself touches its list [temp_files]. *)
Lemma get_youtube_transcript_same_temp (video_id : string) :
  keeps same_temp_files (get_youtube_transcript env video_id).
Proof. keeps_auto; reflexivity. Qed.

Lemma download_video_same_temp (url output_path : string) :
  keeps same_temp_files (download_video env url output_path).
Proof. keeps_auto; reflexivity. Qed.

Lemma extract_audio_ffmpeg_same_temp (video_path audio_path : string) :
  keeps same_temp_files (extract_audio_ffmpeg env video_path audio_path).
Proof. keeps_auto; reflexivity. Qed.

Lemma transcribe_audio_whisper_same_temp (audio_path language : string) :
  keeps same_temp_files (transcribe_audio_whisper env audio_path language).
Proof. keeps_auto; reflexivity. Qed.

Lemma summarize_with_openai_same_temp (text' : string) (max_tokens : nat) :
  keeps same_temp_files (summarize_with_openai env text' max_tokens).
Proof. keeps_auto; reflexivity. Qed.

Lemma cleanup_same_temp : keeps same_temp_files (cleanup env).
Proof. keeps_auto; reflexivity. Qed.

End MethodsKeep.

(** ** The caption fetcher *)

(** C6: [get_youtube_transcript] never raises; when the caption service
    fails, whatever the failure, it returns [None], and otherwise the
    fragments' texts joined by single spaces. *)
Theorem get_youtube_transcript_never_raises (env : Env) (video_id : string) (st : State) :
  fst (get_youtube_transcript env video_id st)
  = Ok (match ext_get_transcript env video_id caption_languages with
        | inl _ => None
        | inr transcript => Some (String.concat " " (map text transcript))
        end).
Proof.
  unfold get_youtube_transcript, try_except, bind,
    YouTubeTranscriptApi_get_transcript, emit, modify.
  by destruct (ext_get_transcript env video_id caption_languages).
Qed.

Lemma get_youtube_transcript_run (env : Env) (video_id : string) (st : State) :
  get_youtube_transcript env video_id st
  = (Ok (match ext_get_transcript env video_id caption_languages with
         | inl _ => None
         | inr transcript => Some (String.concat " " (map text transcript))
         end),
     with_trace (fun t => t ++ [EvGetTranscript video_id caption_languages]) st).
Proof.
  unfold get_youtube_transcript, try_except, bind,
    YouTubeTranscriptApi_get_transcript, emit, modify.
  by destruct (ext_get_transcript env video_id caption_languages).
Qed.

(** ** The download chain *)

Lemma downloads_of_app (t1 t2 : list Event) :
  downloads_of (t1 ++ t2) = downloads_of t1 ++ downloads_of t2.
Proof.
  induction t1 as [|ev t1 IH]; simpl; [done|].
  destruct ev; simpl; by rewrite ?IH.
Qed.

Ltac run_download :=
  unfold download_video, strategies; cbn [download_loop length];
  unfold try_except, bind, _dl_basic, _dl_with_headers, _dl_with_browser_cookies,
    _dl_with_retries, YoutubeDL_download, time_sleep, time_sleep_uniform,
    emit, modify, run_tool, ret, raise.

(** C4: the strategies run in the order Basic, Headers, BrowserCookies,
    Retries; when strategy [k] is the first to succeed, exactly the first
    [k+1] download calls are made, the destination path is returned and the
    file is there. *)
Theorem download_video_first_success (env : Env) (url output_path : string)
    (st : State) (k : nat) (opts : YdlOpts) :
  attempts output_path !! k = Some opts ->
  ext_ydl_download env opts [url] = Done ->
  (forall j opts', j < k -> attempts output_path !! j = Some opts' ->
     exists e b, ext_ydl_download env opts' [url] = Failed e b) ->
  fst (download_video env url output_path st) = Ok output_path /\
  downloads_of (trace (snd (download_video env url output_path st)))
  = downloads_of (trace st) ++ take (S k) (attempts output_path) /\
  output_path ∈ files (snd (download_video env url output_path st)).
Proof.
  intros Hk Hdone Hfail.
  assert (H0 : 0 < k -> exists e b,
             ext_ydl_download env (ydl_opts_basic output_path) [url] = Failed e b)
    by (intros; by apply (Hfail 0)).
  assert (H1 : 1 < k -> exists e b,
             ext_ydl_download env (ydl_opts_headers output_path) [url] = Failed e b)
    by (intros; by apply (Hfail 1)).
  assert (H2 : 2 < k -> exists e b,
             ext_ydl_download env (ydl_opts_browser_cookies output_path) [url] = Failed e b)
    by (intros; by apply (Hfail 2)).
  clear Hfail.
  destruct k as [|[|[|[|k]]]]; simpl in Hk; try done; injection Hk as <-.
  - run_download. rewrite Hdone. simpl.
    rewrite downloads_of_app. split_and!; [done | done | set_solver].
  - destruct H0 as (e0 & b0 & E0); [lia|].
    run_download. rewrite E0, Hdone. destruct b0; simpl.
    all: rewrite !downloads_of_app; simpl; rewrite <- ?app_assoc.
    all: split_and!; [done | done | set_solver].
  - destruct H0 as (e0 & b0 & E0); [lia|]. destruct H1 as (e1 & b1 & E1); [lia|].
    run_download. rewrite E0. destruct b0; simpl.
    all: rewrite E1; destruct b1; simpl; rewrite Hdone; simpl.
    all: rewrite !downloads_of_app; simpl; rewrite <- ?app_assoc.
    all: split_and!; [done | done | set_solver].
  - destruct H0 as (e0 & b0 & E0); [lia|]. destruct H1 as (e1 & b1 & E1); [lia|].
    destruct H2 as (e2 & b2 & E2); [lia|].
    run_download. rewrite E0. destruct b0; simpl.
    all: rewrite E1; destruct b1; simpl.
    all: rewrite E2; destruct b2; simpl; rewrite Hdone; simpl.
    all: rewrite !downloads_of_app; simpl; rewrite <- ?app_assoc.
    all: split_and!; [done | done | set_solver].
Qed.

Lemma download_video_first_success_witness :
  fst (download_video (env_download headers_pass) "https://youtu.be/abc123"
         "temp_video.mp4" sample_state) = Ok "temp_video.mp4" /\
  downloads_of (trace (snd (download_video (env_download headers_pass)
                              "https://youtu.be/abc123" "temp_video.mp4" sample_state)))
  = downloads_of (trace sample_state) ++ take 2 (attempts "temp_video.mp4") /\
  "temp_video.mp4" ∈ files (snd (download_video (env_download headers_pass)
                                  "https://youtu.be/abc123" "temp_video.mp4" sample_state)).
Proof.
  apply (download_video_first_success (env_download headers_pass)
           "https://youtu.be/abc123" "temp_video.mp4" sample_state 1
           (ydl_opts_headers "temp_video.mp4")).
  - reflexivity.
  - reflexivity.
  - intros j opts' Hj Hopts.
    destruct j as [|j]; [|lia].
    injection Hopts as <-. exists bot_wall, false. reflexivity.
Defined.

(** C5: when all four strategies fail, the exception raised carries the
    message of the fourth failure only; the first three failures, whatever
    they were, leave no mark on it. *)
Theorem download_video_all_fail_last_error (env : Env) (url output_path : string)
    (st : State) (e1 e2 e3 e4 : Exn) (b1 b2 b3 b4 : bool) :
  ext_ydl_download env (ydl_opts_basic output_path) [url] = Failed e1 b1 ->
  ext_ydl_download env (ydl_opts_headers output_path) [url] = Failed e2 b2 ->
  ext_ydl_download env (ydl_opts_browser_cookies output_path) [url] = Failed e3 b3 ->
  ext_ydl_download env (ydl_opts_retries output_path) [url] = Failed e4 b4 ->
  fst (download_video env url output_path st)
  = Raise (exception ("Erro ao baixar vídeo: " +:+ str e4)).
Proof.
  intros E1 E2 E3 E4. run_download.
  rewrite E1. destruct b1; simpl.
  all: rewrite E2; destruct b2; simpl.
  all: rewrite E3; destruct b3; simpl.
  all: rewrite E4; destruct b4; reflexivity.
Qed.

Lemma download_video_all_fail_witness :
  fst (download_video (env_download all_blocked) "https://youtu.be/abc123"
         "temp_video.mp4" sample_state)
  = Raise (exception "Erro ao baixar vídeo: retries blocked").
Proof.
  exact (download_video_all_fail_last_error (env_download all_blocked)
           "https://youtu.be/abc123" "temp_video.mp4" sample_state
           (exception "basic blocked") (exception "headers blocked")
           (exception "cookies blocked") (exception "retries blocked")
           false false false false eq_refl eq_refl eq_refl eq_refl).
Defined.

(** ** Generalised composition: reaching a state from a fixed origin *)

Section Reach.

Variable I : relation State.
Context `{!PreOrder I}.

Lemma reach_bind {A B : Type} (o : State) (m : M A) (f : A -> M B) (st : State) :
  I o (snd (m st)) -> (forall a, keeps I (f a)) -> I o (snd (bind m f st)).
Proof.
  intros Hm Hf. unfold bind.
  destruct (m st) as [[a|e] st1]; simpl in *; [|done].
  etrans; [exact Hm | apply Hf].
Qed.

Lemma reach_try_except {A : Type} (o : State) (body : M A) (handler : Exn -> M A)
    (st : State) :
  I o (snd (body st)) -> (forall e, keeps I (handler e)) ->
  I o (snd (try_except body handler st)).
Proof.
  intros Hm Hh. unfold try_except.
  destruct (body st) as [[a|e] st1]; simpl in *; [done|].
  etrans; [exact Hm | apply Hh].
Qed.

Lemma reach_try_finally {A : Type} (o : State) (body : M A) (fin : M unit) (st : State) :
  I o (snd (body st)) -> keeps I fin -> I o (snd (try_finally body fin st)).
Proof.
  intros Hm Hf. unfold try_finally.
  destruct (body st) as [r st1]. specialize (Hf st1).
  destruct (fin st1) as [[[]|e] st2]; simpl in *; etrans; eauto.
Qed.

End Reach.

(** ** The trace only grows *)

Ltac trace_side :=
  first [ apply trace_grows_emit
        | unfold trace_grows; simpl; reflexivity ].

Section TraceGrows.

Variable env : Env.

Lemma get_youtube_transcript_grows (video_id : string) :
  keeps trace_grows (get_youtube_transcript env video_id).
Proof. keeps_auto; trace_side. Qed.

Lemma download_loop_grows (todo : list (string -> string -> M unit))
    (idx total : nat) (url output_path : string) (last_error : option Exn) :
  (forall strategy, strategy ∈ todo -> keeps trace_grows (strategy url output_path)) ->
  keeps trace_grows (download_loop todo idx total url output_path last_error).
Proof.
  revert idx last_error.
  induction todo as [|strategy todo IH]; intros idx last_error Hall;
    cbn [download_loop].
  - keeps_auto.
  - apply keeps_try_except; [apply _ | |intros err].
    + apply keeps_bind; [apply _ | apply Hall; set_solver | intros; apply keeps_ret; apply _].
    + apply keeps_bind; [apply _ | | intros _; apply IH; intros; apply Hall; set_solver].
      keeps_auto; trace_side.
Qed.

Lemma download_video_grows (url output_path : string) :
  keeps trace_grows (download_video env url output_path).
Proof.
  apply download_loop_grows. unfold strategies.
  intros strategy Hin. repeat (apply elem_of_cons in Hin as [->|Hin]).
  all: try (keeps_auto; trace_side).
  by apply elem_of_nil in Hin.
Qed.

Lemma extract_audio_ffmpeg_grows (video_path audio_path : string) :
  keeps trace_grows (extract_audio_ffmpeg env video_path audio_path).
Proof. keeps_auto; trace_side. Qed.

Lemma transcribe_audio_whisper_grows (audio_path language : string) :
  keeps trace_grows (transcribe_audio_whisper env audio_path language).
Proof. keeps_auto; trace_side. Qed.

Lemma summarize_with_openai_grows (text' : string) (max_tokens : nat) :
  keeps trace_grows (summarize_with_openai env text' max_tokens).
Proof. keeps_auto; trace_side. Qed.

Lemma cleanup_grows : keeps trace_grows (cleanup env).
Proof. keeps_auto; trace_side. Qed.

End TraceGrows.

(** ** The cleanup *)

Section Cleanup.

Variable env : Env.

(** One turn of the cleanup loop: it never raises, files only go away, and
    the file is gone unless [os.remove] refused. *)
Lemma cleanup_turn (file_path : string) (st : State) :
  exists st',
    try_except
      (present <- os_path_exists file_path ;;
       if present then os_remove env file_path else ret tt)
      (fun _ => ret tt) st = (Ok tt, st') /\
    temp_files st' = temp_files st /\
    files st' ⊆ files st /\
    (ext_os_remove env file_path = None -> file_path ∉ files st').
Proof.
  unfold try_except, os_remove, os_path_exists, emit, modify.
  unfold bind, get, ret, raise. simpl.
  destruct (bool_decide (file_path ∈ files st)) eqn:Hin; simpl.
  - destruct (ext_os_remove env file_path) as [e|]; simpl.
    + eexists; split_and!; [done | done | done | done].
    + rewrite Hin. simpl.
      eexists; split_and!; [done | done | simpl; by apply subseteq_difference_l | ].
      simpl. intros _ [_ Hn]%elem_of_difference. apply Hn. by apply elem_of_singleton.
  - apply bool_decide_eq_false in Hin.
    eexists; split_and!; [done | done | done | done].
Qed.

Lemma cleanup_loop (paths : list string) (st : State) :
  exists st',
    for_each paths (fun file_path =>
      try_except
        (present <- os_path_exists file_path ;;
         if present then os_remove env file_path else ret tt)
        (fun _ => ret tt)) st = (Ok tt, st') /\
    temp_files st' = temp_files st /\
    files st' ⊆ files st /\
    (forall p, p ∈ paths -> ext_os_remove env p = None -> p ∉ files st').
Proof.
  revert st. induction paths as [|x paths IH]; intros st; cbn [for_each].
  - exists st. split_and!; [done | done | done | ].
    intros p Hp. by apply elem_of_nil in Hp.
  - destruct (cleanup_turn x st) as (st1 & E1 & T1 & F1 & R1).
    destruct (IH st1) as (st2 & E2 & T2 & F2 & R2).
    exists st2. unfold bind at 1. rewrite E1, E2.
    split_and!; [done | congruence | set_solver | ].
    intros p Hp Hrm. apply elem_of_cons in Hp as [->|Hp].
    + specialize (R1 Hrm). set_solver.
    + by apply R2.
Qed.

Lemma cleanup_run (st : State) :
  exists st',
    cleanup env st = (Ok tt, st') /\
    temp_files st' = temp_files st /\
    files st' ⊆ files st /\
    (forall p, p ∈ temp_files st -> ext_os_remove env p = None -> p ∉ files st').
Proof.
  unfold cleanup, bind at 1, get.
  apply cleanup_loop.
Qed.

End Cleanup.

(** ** The body of [process_video] *)

Section Pipeline.

Variable env : Env.

Lemma extract_video_id_run (url : string) (st : State) :
  _extract_video_id url st
  = match video_id_of url with
    | Some video_id => (Ok video_id, st)
    | None => (Raise {| exn_class := ValueError; exn_msg := "URL do YouTube inválida" |}, st)
    end.
Proof.
  unfold _extract_video_id, video_id_of.
  by destruct (first_match patterns url).
Qed.

Lemma download_loop_returns_path (todo : list (string -> string -> M unit))
    (idx total : nat) (url output_path : string) (last_error : option Exn)
    (st : State) (p : string) :
  fst (download_loop todo idx total url output_path last_error st) = Ok p ->
  p = output_path.
Proof.
  revert idx last_error st.
  induction todo as [|strategy todo IH]; intros idx last_error st;
    cbn [download_loop]; [done|].
  unfold try_except, bind at 1.
  destruct (strategy url output_path st) as [[[]|e] st1]; simpl.
  - congruence.
  - unfold bind.
    destruct ((if idx <? total then time_sleep 1500 else ret tt) st1) as [[[]|e'] st2];
      [apply IH | done].
Qed.

Lemma download_video_returns_path (url output_path : string) (st : State) (p : string) :
  fst (download_video env url output_path st) = Ok p -> p = output_path.
Proof. apply download_loop_returns_path. Qed.

(** What the fallback block leaves in [temp_files]: both paths when it
    returns, a prefix of them when it raises. *)
Lemma fallback_block_temp_files (url : string) (st : State)
    (r : Result string) (st' : State) :
  fallback_block env url st = (r, st') ->
  match r with
  | Ok _ => temp_files st' = temp_files st ++ ["temp_video.mp4"; "temp_audio.wav"]
  | Raise _ =>
      exists l, l `prefix_of` ["temp_video.mp4"; "temp_audio.wav"] /\
        temp_files st' = temp_files st ++ l
  end.
Proof.
  unfold fallback_block. intros H. unfold bind at 1 in H.
  pose proof (download_video_same_temp env url "temp_video.mp4" st) as T1.
  pose proof (download_video_returns_path url "temp_video.mp4" st) as P1.
  destruct (download_video env url "temp_video.mp4" st) as [[p|e] st1];
    unfold same_temp_files in T1; simpl in *.
  2:{ injection H as <- <-. exists []. rewrite app_nil_r.
      split; [apply prefix_nil | done]. }
  rewrite (P1 p eq_refl) in H. clear P1.
  unfold bind at 1, modify at 1 in H. unfold bind at 1 in H.
  set (st2 := with_temp_files (fun l => l ++ ["temp_video.mp4"]) st1) in H.
  pose proof (extract_audio_ffmpeg_same_temp env "temp_video.mp4" "temp_audio.wav" st2) as T2.
  destruct (extract_audio_ffmpeg env "temp_video.mp4" "temp_audio.wav" st2) as [[[]|e] st3];
    unfold same_temp_files in T2; simpl in *.
  2:{ injection H as <- <-. exists ["temp_video.mp4"]. rewrite T2, T1.
      split; [by exists ["temp_audio.wav"] | done]. }
  unfold bind at 1, modify at 1 in H.
  set (st4 := with_temp_files (fun l => l ++ ["temp_audio.wav"]) st3) in H.
  pose proof (transcribe_audio_whisper_same_temp env "temp_audio.wav" "pt" st4) as T3.
  assert (T4 : temp_files st4 = temp_files st ++ ["temp_video.mp4"; "temp_audio.wav"]).
  { subst st4. simpl. rewrite T2, T1. by rewrite <- app_assoc. }
  rewrite H in T3. unfold same_temp_files in T3. cbn [snd] in T3.
  rewrite T4 in T3.
  destruct r as [t|e]; [done|].
  by exists ["temp_video.mp4"; "temp_audio.wav"].
Qed.

(** The [try] block started with an empty [temp_files]: the method tag
    follows the truth value of the caption text, and [temp_files] holds the
    two fixed paths or a prefix of them. *)
Lemma try_block_outcome (url video_id : string) (st : State)
    (r : Result (list (string * Value))) (st' : State) :
  temp_files st = [] ->
  try_block env url video_id st = (r, st') ->
  match r with
  | Ok d =>
      (exists t s,
         d = [ ("video_id", VStr video_id); ("transcript", VStr t);
               ("summary", VStr s);
               ("method", VStr (if truthy (caption_text env video_id)
                                then "youtube_transcript" else "whisper"));
               ("success", VBool true) ]) /\
      temp_files st' = (if truthy (caption_text env video_id) then []
                        else ["temp_video.mp4"; "temp_audio.wav"])
  | Raise _ => temp_files st' `prefix_of` ["temp_video.mp4"; "temp_audio.wav"]
  end.
Proof.
  intros Hempty H. unfold try_block in H. unfold bind at 1 in H.
  rewrite get_youtube_transcript_run in H. fold (caption_text env video_id) in H.
  set (st1 := with_trace _ st) in H.
  assert (T1 : temp_files st1 = []) by done.
  unfold bind at 1 in H.
  destruct (truthy (caption_text env video_id)) eqn:Htruthy; cbn [negb] in H.
  - unfold ret at 1 in H. unfold bind at 1 in H.
    pose proof (summarize_with_openai_same_temp env
                  (default "" (caption_text env video_id)) 500 st1) as T2.
    destruct (summarize_with_openai env _ 500 st1) as [[s|e] st2];
      unfold same_temp_files in T2; cbn [snd] in T2; rewrite T1 in T2.
    + unfold bind, get, ret in H. rewrite T2 in H. injection H as <- <-.
      split; [by eexists _, _ | done].
    + injection H as <- <-. rewrite T2. apply prefix_nil.
  - destruct (fallback_block env url st1) as [[t|e] st2] eqn:Ef;
      apply fallback_block_temp_files in Ef; rewrite T1 in Ef; cbn [app] in Ef.
    + unfold bind at 1 in H.
      pose proof (summarize_with_openai_same_temp env t 500 st2) as T2.
      destruct (summarize_with_openai env t 500 st2) as [[s|e] st3];
        unfold same_temp_files in T2; cbn [snd] in T2; rewrite Ef in T2.
      * unfold bind, get, ret in H. rewrite T2 in H. injection H as <- <-.
        split; [by eexists _, _ | done].
      * injection H as <- <-. by rewrite T2.
    + injection H as <- <-. destruct Ef as (l & Hl & ->). done.
Qed.

(** A run on an address with a recognisable identifier: the [try] block,
    then the [except] block if it raised, then the cleanup; the run returns
    a dictionary. *)
Lemma process_video_run (url video_id : string) (st : State) :
  video_id_of url = Some video_id ->
  exists r st1 st2,
    try_block env url video_id (with_temp_files (fun _ => []) st) = (r, st1) /\
    cleanup env st1 = (Ok tt, st2) /\
    process_video env url st
    = (Ok (match r with Ok d => d | Raise e => failure_dict video_id e end), st2).
Proof.
  intros Hid. unfold process_video. unfold bind at 1.
  rewrite extract_video_id_run, Hid.
  unfold bind at 1, modify at 1. unfold try_finally, try_except.
  destruct (try_block env url video_id (with_temp_files (fun _ => []) st))
    as [r st1] eqn:Et.
  destruct (cleanup_run env st1) as (st2 & Ec & _).
  exists r, st1, st2. split_and!; [done | done |].
  destruct r as [d|e]; unfold except_block, ret; by rewrite Ec.
Qed.

End Pipeline.

(** ** The orchestrator *)

Section Orchestrator.

Variable env : Env.

Lemma process_video_raises_without_id (url : string) (st : State) :
  video_id_of url = None ->
  process_video env url st
  = (Raise {| exn_class := ValueError; exn_msg := "URL do YouTube inválida" |}, st).
Proof.
  intros Hid. unfold process_video, bind.
  by rewrite extract_video_id_run, Hid.
Qed.

(** With a recognisable identifier in the address, [process_video] returns a
    dictionary whatever the outside world does. *)
Lemma process_video_returns_with_id (url video_id : string) (st : State) :
  video_id_of url = Some video_id ->
  exists d, fst (process_video env url st) = Ok d.
Proof.
  intros Hid.
  destruct (process_video_run env url video_id st Hid) as (r & st1 & st2 & _ & _ & ->).
  by eexists.
Qed.

Lemma process_video_returned_has_id (url : string) (st : State)
    (d : list (string * Value)) (st' : State) :
  process_video env url st = (Ok d, st') ->
  exists video_id, video_id_of url = Some video_id.
Proof.
  intros H. destruct (video_id_of url) as [video_id|] eqn:Hid; [by eexists|].
  by rewrite (process_video_raises_without_id url st Hid) in H.
Qed.

(** The method tag of a successful run. *)
Lemma process_video_success_method (url video_id : string) (st : State)
    (d : list (string * Value)) (st' : State) :
  video_id_of url = Some video_id ->
  process_video env url st = (Ok d, st') ->
  dict_get d "success" = Some (VBool true) ->
  dict_get d "method"
  = Some (VStr (if truthy (caption_text env video_id)
                then "youtube_transcript" else "whisper")).
Proof.
  intros Hid H Hsuccess.
  destruct (process_video_run env url video_id st Hid) as (r & st1 & st2 & Et & _ & E).
  rewrite E in H. injection H as <- <-.
  apply try_block_outcome in Et; [|done].
  destruct r as [d|e]; [|done].
  destruct Et as [(t & s & ->) _]. reflexivity.
Qed.

Lemma truthy_caption_text (video_id : string) :
  truthy (caption_text env video_id) = true <->
  exists transcript,
    ext_get_transcript env video_id caption_languages = inr transcript /\
    String.concat " " (map text transcript) <> "".
Proof.
  unfold caption_text, truthy.
  destruct (ext_get_transcript env video_id caption_languages) as [e|transcript].
  - split; [done | by intros (? & ? & _)].
  - rewrite negb_true_iff, String.eqb_neq. split.
    + intros Hne. by exists transcript.
    + intros (transcript' & [= <-] & Hne). done.
Qed.

(** What [temp_files] holds when a run returns. *)
Lemma process_video_temp_files (url : string) (st : State)
    (d : list (string * Value)) (st' : State) :
  process_video env url st = (Ok d, st') ->
  temp_files st' `prefix_of` ["temp_video.mp4"; "temp_audio.wav"] /\
  (dict_get d "method" = Some (VStr "whisper") ->
   temp_files st' = ["temp_video.mp4"; "temp_audio.wav"]).
Proof.
  intros H.
  destruct (process_video_returned_has_id url st d st' H) as [video_id Hid].
  destruct (process_video_run env url video_id st Hid) as (r & st1 & st2 & Et & Ec & E).
  rewrite E in H. injection H as <- <-.
  destruct (cleanup_run env st1) as (st2' & Ec' & T & _).
  rewrite Ec in Ec'. injection Ec' as <-. rewrite T.
  apply try_block_outcome in Et; [|done].
  destruct r as [d|e]; [|by split].
  destruct Et as [(t & s & ->) ->].
  destruct (truthy (caption_text env video_id)); [by split; [apply prefix_nil|] | done].
Qed.

End Orchestrator.

(** C1 (the code departs from it): on the malformed address ["not a url"]
    [process_video] does not return a result with [success = False]; the
    [ValueError] of [_extract_video_id], raised before the [try] statement
    is entered, leaves [process_video]. *)
Theorem process_video_raises_on_malformed_url (env : Env) (st : State) :
  process_video env "not a url" st
  = (Raise {| exn_class := ValueError; exn_msg := "URL do YouTube inválida" |}, st).
Proof.
  apply process_video_raises_without_id.
  vm_compute. reflexivity.
Qed.

(** C2, as stated, fails: in [run_locked_video] the run succeeds through
    the speech path, [os.remove] raises on the downloaded video, the error
    is swallowed and the video is still on disk when the run returns. *)
Lemma cleanup_leaves_locked_video :
  ~ (forall p, p ∈ temp_files (snd run_locked_video) ->
               p ∉ files (snd run_locked_video)).
Proof.
  intros H. apply (H "temp_video.mp4").
  - assert (E : temp_files (snd run_locked_video)
                = ["temp_video.mp4"; "temp_audio.wav"]) by (vm_compute; reflexivity).
    rewrite E. apply list_elem_of_here.
  - apply (bool_decide_unpack ("temp_video.mp4" ∈ files (snd run_locked_video))).
    vm_compute. exact I.
Qed.

(** C2, amended: when [process_video] returns, every path it recorded in
    [temp_files] whose [os.remove] does not raise is absent from the disk. *)
Theorem cleanup_removes_recorded_files (env : Env) (url : string) (st : State)
    (d : list (string * Value)) (st' : State) (p : string) :
  process_video env url st = (Ok d, st') ->
  p ∈ temp_files st' ->
  ext_os_remove env p = None ->
  p ∉ files st'.
Proof.
  intros H Hp Hrm.
  destruct (process_video_returned_has_id env url st d st' H) as [video_id Hid].
  destruct (process_video_run env url video_id st Hid) as (r & st1 & st2 & _ & Ec & E).
  rewrite E in H. injection H as <- <-.
  destruct (cleanup_run env st1) as (st2' & Ec' & T & _ & R).
  rewrite Ec in Ec'. injection Ec' as <-.
  apply R; [by rewrite <- T | done].
Qed.

Lemma cleanup_removes_recorded_files_witness :
  "temp_audio.wav" ∉ files (snd run_locked_video).
Proof.
  apply (cleanup_removes_recorded_files env_locked_video
           "https://www.youtube.com/watch?v=abc123" sample_state
           (returned run_locked_video) (snd run_locked_video) "temp_audio.wav").
  - vm_compute. reflexivity.
  - assert (E : temp_files (snd run_locked_video)
                = ["temp_video.mp4"; "temp_audio.wav"]) by (vm_compute; reflexivity).
    rewrite E. apply list_elem_of_further, list_elem_of_here.
  - reflexivity.
Defined.

(** C3, as stated, fails: in [run_empty_captions] the caption fetch
    succeeds (with no fragment), the run succeeds, and the method tag is
    that of the speech model. *)
Lemma empty_captions_tagged_whisper :
  ~ (dict_get (returned run_empty_captions) "success" = Some (VBool true) ->
     (dict_get (returned run_empty_captions) "method" = Some (VStr "youtube_transcript")
      <-> exists transcript,
            ext_get_transcript (env_captions (inr [])) "abc123" caption_languages
            = inr transcript)).
Proof.
  intros H.
  assert (Hs : dict_get (returned run_empty_captions) "success" = Some (VBool true))
    by (vm_compute; reflexivity).
  assert (Hm : dict_get (returned run_empty_captions) "method" = Some (VStr "whisper"))
    by (vm_compute; reflexivity).
  destruct (H Hs) as [_ Hback].
  rewrite Hm in Hback.
  discriminate Hback. by exists [].
Qed.

(** C3, amended: in a successful run the method tag is the caption tag if
    and only if the caption fetch succeeded with a non-empty text, and the
    speech-model tag otherwise. *)
Theorem method_tag_follows_caption_text (env : Env) (url video_id : string)
    (st : State) (d : list (string * Value)) (st' : State) :
  video_id_of url = Some video_id ->
  process_video env url st = (Ok d, st') ->
  dict_get d "success" = Some (VBool true) ->
  (dict_get d "method" = Some (VStr "youtube_transcript") <->
   exists transcript,
     ext_get_transcript env video_id caption_languages = inr transcript /\
     String.concat " " (map text transcript) <> "") /\
  (~ (exists transcript,
        ext_get_transcript env video_id caption_languages = inr transcript /\
        String.concat " " (map text transcript) <> "") ->
   dict_get d "method" = Some (VStr "whisper")).
Proof.
  intros Hid H Hsuccess.
  rewrite (process_video_success_method env url video_id st d st' Hid H Hsuccess).
  rewrite <- truthy_caption_text.
  destruct (truthy (caption_text env video_id)); split; done.
Qed.

Lemma method_tag_follows_caption_text_witness :
  dict_get (returned run_captions) "method" = Some (VStr "youtube_transcript") <->
  exists transcript,
    ext_get_transcript
      (env_captions (inr [ {| text := "hello"; start_ms := 0; duration_ms := 1200 |};
                           {| text := "world"; start_ms := 1200; duration_ms := 900 |} ]))
      "abc123" caption_languages = inr transcript /\
    String.concat " " (map text transcript) <> "".
Proof.
  refine (proj1 (method_tag_follows_caption_text _
            "https://www.youtube.com/watch?v=abc123" "abc123" sample_state
            (returned run_captions) (snd run_captions) _ _ _)).
  - vm_compute. reflexivity.
  - vm_compute. reflexivity.
  - vm_compute. reflexivity.
Defined.

(** C8, as stated, fails: two runs on different videos record the same
    artifact paths. *)
Lemma two_runs_share_artifact_paths :
  ~ (forall p, p ∈ temp_files (snd run_first) -> p ∉ temp_files (snd run_second)).
Proof.
  intros H.
  assert (E1 : temp_files (snd run_first) = ["temp_video.mp4"; "temp_audio.wav"])
    by (vm_compute; reflexivity).
  assert (E2 : temp_files (snd run_second) = ["temp_video.mp4"; "temp_audio.wav"])
    by (vm_compute; reflexivity).
  rewrite E1, E2 in H.
  apply (H "temp_video.mp4"); apply list_elem_of_here.
Qed.

(** C8, amended: whatever the address, the world and the run, the artifacts
    are recorded under the two fixed paths [temp_video.mp4] and
    [temp_audio.wav]; a run that transcribed with the speech model used
    exactly these two. *)
Theorem artifact_paths_are_fixed (env : Env) (url : string) (st : State)
    (d : list (string * Value)) (st' : State) :
  process_video env url st = (Ok d, st') ->
  temp_files st' `prefix_of` ["temp_video.mp4"; "temp_audio.wav"] /\
  (dict_get d "method" = Some (VStr "whisper") ->
   temp_files st' = ["temp_video.mp4"; "temp_audio.wav"]).
Proof. apply process_video_temp_files. Qed.

Lemma artifact_paths_are_fixed_witness :
  temp_files (snd run_second) `prefix_of` ["temp_video.mp4"; "temp_audio.wav"] /\
  (dict_get (returned run_second) "method" = Some (VStr "whisper") ->
   temp_files (snd run_second) = ["temp_video.mp4"; "temp_audio.wav"]).
Proof.
  apply (artifact_paths_are_fixed env_speech "https://youtu.be/xyz789" sample_state
           (returned run_second) (snd run_second)).
  vm_compute. reflexivity.
Defined.

(** ** Empty captions *)

Section SlowPath.

Variable env : Env.

Lemma run_tool_grows (outcome : ToolOutcome) (output : string) :
  keeps trace_grows (run_tool outcome output).
Proof. keeps_auto; trace_side. Qed.

(** The first thing [download_video] does is the Basic download call. *)
Lemma download_video_starts (url output_path : string) (st : State) :
  trace_grows
    (with_trace (fun t => t ++ [EvDownload (ydl_opts_basic output_path) [url]]) st)
    (snd (download_video env url output_path st)).
Proof.
  unfold download_video, strategies. cbn [download_loop].
  apply reach_try_except; [apply _ | | intros err; keeps_auto; trace_side].
  apply reach_bind; [apply _ | | intros; apply keeps_ret; apply _].
  unfold _dl_basic, YoutubeDL_download. unfold bind at 1, emit, modify.
  apply run_tool_grows.
Qed.

Lemma fallback_block_starts (url : string) (st : State) :
  trace_grows
    (with_trace (fun t => t ++ [EvDownload (ydl_opts_basic "temp_video.mp4") [url]]) st)
    (snd (fallback_block env url st)).
Proof.
  unfold fallback_block.
  apply reach_bind; [apply _ | apply download_video_starts | intros video_path].
  apply keeps_bind; [apply _ | keeps_auto; trace_side | intros _].
  apply keeps_bind; [apply _ | apply extract_audio_ffmpeg_grows | intros _].
  apply keeps_bind; [apply _ | keeps_auto; trace_side | intros _].
  apply transcribe_audio_whisper_grows.
Qed.

Lemma try_block_empty_captions (e : Exn) (url video_id : string) (st : State) :
  ext_get_transcript env video_id caption_languages = inr [] ->
  try_block env url video_id st = try_block (without_captions e env) url video_id st.
Proof.
  intros Hempty. unfold try_block. unfold bind at 1. symmetry. unfold bind at 1.
  rewrite !get_youtube_transcript_run, Hempty. reflexivity.
Qed.

End SlowPath.

(** C10: when the caption service answers with an empty list of fragments,
    [process_video] behaves exactly as if the captions were unavailable: it
    goes on to the Basic download call right after the caption request, and
    a run that then succeeds carries the speech-model tag. *)
Theorem empty_captions_take_slow_path (env : Env) (e : Exn) (url video_id : string)
    (st : State) :
  video_id_of url = Some video_id ->
  ext_get_transcript env video_id caption_languages = inr [] ->
  process_video env url st = process_video (without_captions e env) url st /\
  trace st ++ [ EvGetTranscript video_id caption_languages;
                EvDownload (ydl_opts_basic "temp_video.mp4") [url] ]
    `prefix_of` trace (snd (process_video env url st)) /\
  (dict_get (returned (process_video env url st)) "success" = Some (VBool true) ->
   dict_get (returned (process_video env url st)) "method" = Some (VStr "whisper")).
Proof.
  intros Hid Hempty. split_and!.
  - unfold process_video, bind, modify, try_finally, try_except.
    rewrite !extract_video_id_run, Hid.
    rewrite (try_block_empty_captions env e url video_id _ Hempty).
    reflexivity.
  - set (st0 := with_temp_files (fun _ => []) st).
    set (st1 := with_trace (fun t => t ++ [EvGetTranscript video_id caption_languages]) st0).
    set (o := with_trace
                (fun t => t ++ [EvDownload (ydl_opts_basic "temp_video.mp4") [url]]) st1).
    assert (Ho : trace o = trace st ++ [ EvGetTranscript video_id caption_languages;
                   EvDownload (ydl_opts_basic "temp_video.mp4") [url] ])
      by (subst o st1 st0; simpl; by rewrite <- app_assoc).
    rewrite <- Ho. change (trace_grows o (snd (process_video env url st))).
    unfold process_video. unfold bind at 1. rewrite extract_video_id_run, Hid.
    unfold bind at 1, modify at 1. fold st0.
    apply reach_try_finally; [apply _ | | apply cleanup_grows].
    apply reach_try_except;
      [apply _ | | intros err; unfold except_block; apply keeps_ret; apply _].
    unfold try_block. unfold bind at 1.
    rewrite get_youtube_transcript_run, Hempty. fold st1. cbn [map String.concat truthy negb String.eqb].
    apply reach_bind; [apply _ | apply fallback_block_starts | intros transcript].
    apply keeps_bind; [apply _ | apply summarize_with_openai_grows | intros summary].
    keeps_auto; trace_side.
  - intros Hsuccess.
    destruct (process_video env url st) as [[d|e'] st'] eqn:E; [|done].
    unfold returned in *. cbn [fst] in *.
    rewrite (process_video_success_method env url video_id st d st' Hid E Hsuccess).
    unfold caption_text. by rewrite Hempty.
Qed.

Lemma empty_captions_take_slow_path_witness :
  process_video (env_captions (inr [])) "https://www.youtube.com/watch?v=abc123"
    sample_state
  = process_video (without_captions no_captions (env_captions (inr [])))
      "https://www.youtube.com/watch?v=abc123" sample_state /\
  trace sample_state
    ++ [ EvGetTranscript "abc123" caption_languages;
         EvDownload (ydl_opts_basic "temp_video.mp4")
           ["https://www.youtube.com/watch?v=abc123"] ]
    `prefix_of` trace (snd run_empty_captions) /\
  (dict_get (returned run_empty_captions) "success" = Some (VBool true) ->
   dict_get (returned run_empty_captions) "method" = Some (VStr "whisper")).
Proof.
  apply (empty_captions_take_slow_path (env_captions (inr [])) no_captions
           "https://www.youtube.com/watch?v=abc123" "abc123" sample_state).
  - vm_compute. reflexivity.
  - reflexivity.
Defined.

(** ** The lazily loaded model *)

Lemma loads_of_app (t1 t2 : list Event) :
  loads_of (t1 ++ t2) = loads_of t1 ++ loads_of t2.
Proof.
  induction t1 as [|ev t1 IH]; simpl; [done|].
  destruct ev; simpl; by rewrite ?IH.
Qed.

(** A call on a transcriber that holds a model: no load, the object and the
    count of models built are untouched. *)
Lemma transcribe_with_model (env : Env) (audio_path language : string)
    (st : State) (m : Model) :
  whisper_model (self st) = Some m ->
  self (snd (transcribe_audio_whisper env audio_path language st)) = self st /\
  models_built (snd (transcribe_audio_whisper env audio_path language st))
  = models_built st /\
  trace (snd (transcribe_audio_whisper env audio_path language st))
  = trace st ++ [EvTranscribe m audio_path language].
Proof.
  intros Hm.
  unfold transcribe_audio_whisper, try_except, model_transcribe, emit, modify.
  unfold bind, get, ret. rewrite Hm. simpl. rewrite Hm. simpl.
  by destruct (ext_transcribe env m audio_path language).
Qed.

(** A call on a transcriber that holds no model: one load is requested;
    when it succeeds the new model is stored in the object. *)
Lemma transcribe_without_model (env : Env) (audio_path language : string) (st : State) :
  whisper_model (self st) = None ->
  match ext_load_model env (whisper_model_size (self st)) with
  | Some e =>
      transcribe_audio_whisper env audio_path language st
      = (Raise e, with_trace (fun t => t ++ [EvLoadModel (whisper_model_size (self st))]) st)
  | None =>
      let m := {| model_size := whisper_model_size (self st);
                  model_serial := models_built st |} in
      self (snd (transcribe_audio_whisper env audio_path language st))
      = set_whisper_model (Some m) (self st) /\
      models_built (snd (transcribe_audio_whisper env audio_path language st))
      = S (models_built st) /\
      trace (snd (transcribe_audio_whisper env audio_path language st))
      = trace st ++ [EvLoadModel (whisper_model_size (self st));
                     EvTranscribe m audio_path language]
  end.
Proof.
  intros Hm.
  unfold transcribe_audio_whisper, try_except, whisper_load_model, model_transcribe,
    emit, modify.
  unfold bind, get, ret, raise. rewrite Hm. simpl.
  destruct (ext_load_model env (whisper_model_size (self st))) as [e|]; simpl; [done|].
  destruct (ext_transcribe env _ audio_path language); simpl;
    by rewrite <- app_assoc.
Qed.

(** Once a model is held, a series of calls neither loads nor builds. *)
Lemma transcribe_calls_with_model (calls : list (Env * string * string))
    (st : State) (m : Model) :
  whisper_model (self st) = Some m ->
  self (transcribe_calls calls st) = self st /\
  models_built (transcribe_calls calls st) = models_built st /\
  loads_of (trace (transcribe_calls calls st)) = loads_of (trace st).
Proof.
  revert st. induction calls as [|[[env audio_path] language] calls IH];
    intros st Hm; cbn [transcribe_calls]; [done|].
  destruct (transcribe_with_model env audio_path language st m Hm) as (Hs & Hb & Ht).
  destruct (IH (snd (transcribe_audio_whisper env audio_path language st)))
    as (Hs' & Hb' & Ht'); [by rewrite Hs|].
  rewrite Hs', Hb', Ht', Hs, Hb, Ht, loads_of_app. simpl.
  by rewrite app_nil_r.
Qed.

(** Over any series of calls at most one more model is built, and none
    when one is already held. *)
Lemma transcribe_calls_build_bound (calls : list (Env * string * string)) (st : State) :
  models_built (transcribe_calls calls st)
  <= models_built st + (match whisper_model (self st) with Some _ => 0 | None => 1 end).
Proof.
  revert st. induction calls as [|[[env audio_path] language] calls IH];
    intros st; cbn [transcribe_calls]; [lia|].
  destruct (whisper_model (self st)) as [m|] eqn:Hm.
  - destruct (transcribe_calls_with_model
                ((env, audio_path, language) :: calls) st m Hm) as (_ & Hb & _).
    cbn [transcribe_calls] in Hb. lia.
  - pose proof (transcribe_without_model env audio_path language st Hm) as Hstep.
    specialize (IH (snd (transcribe_audio_whisper env audio_path language st))).
    destruct (ext_load_model env (whisper_model_size (self st))) as [e|].
    + rewrite Hstep in IH |- *. simpl in IH |- *. rewrite Hm in IH. exact IH.
    + destruct Hstep as (Hs & Hb & _). rewrite Hs, Hb in IH. simpl in IH. lia.
Qed.

(** C9: on a freshly constructed transcriber, any series of
    [transcribe_audio_whisper] calls builds at most one model; when the load
    of the first call succeeds, that call stores the model, and every later
    call finds the same model in the object and requests no further load. *)
Theorem whisper_model_built_at_most_once (key size : string) (t : Transcriber)
    (fs : gset string) :
  YouTubeTranscriber_init key size = inr t ->
  (forall calls, models_built (transcribe_calls calls (fresh_state t fs)) <= 1) /\
  (forall env audio_path language later,
     ext_load_model env size = None ->
     let m := {| model_size := size; model_serial := 0 |} in
     let st1 := snd (transcribe_audio_whisper env audio_path language (fresh_state t fs)) in
     whisper_model (self st1) = Some m /\
     whisper_model (self (transcribe_calls later st1)) = Some m /\
     models_built (transcribe_calls later st1) = 1 /\
     loads_of (trace (transcribe_calls later st1)) = [size]).
Proof.
  unfold YouTubeTranscriber_init. intros Hinit.
  destruct (String.eqb key ""); [done|]. injection Hinit as <-.
  split.
  - intros calls.
    pose proof (transcribe_calls_build_bound calls
                  (fresh_state {| openai_api_key := key; whisper_model_size := size;
                                  whisper_model := None |} fs)) as H.
    simpl in H. exact H.
  - intros env audio_path language later Hload.
    set (m := {| model_size := size; model_serial := 0 |}).
    set (st1 := snd (transcribe_audio_whisper env audio_path language _)).
    pose proof (transcribe_without_model env audio_path language
                  (fresh_state {| openai_api_key := key; whisper_model_size := size;
                                  whisper_model := None |} fs) eq_refl) as Hstep.
    simpl in Hstep. rewrite Hload in Hstep. destruct Hstep as (Hs & Hb & Ht).
    fold st1 in Hs, Hb, Ht.
    assert (Hm : whisper_model (self st1) = Some m) by (by rewrite Hs).
    destruct (transcribe_calls_with_model later st1 m Hm) as (Hs' & Hb' & Ht').
    rewrite Hs', Hb', Ht', Hb, Ht. done.
Qed.

Lemma whisper_model_built_at_most_once_witness :
  models_built
    (transcribe_calls [ (env_speech, "first.wav", "pt"); (env_speech, "second.wav", "en") ]
       (fresh_state sample_transcriber ∅)) <= 1 /\
  loads_of
    (trace (transcribe_calls [ (env_speech, "second.wav", "en") ]
              (snd (transcribe_audio_whisper env_speech "first.wav" "pt"
                      (fresh_state sample_transcriber ∅))))) = ["base"].
Proof.
  destruct (whisper_model_built_at_most_once "sk-test" "base" sample_transcriber ∅ eq_refl)
    as [Hbound Hreuse].
  split.
  - apply Hbound.
  - apply (Hreuse env_speech "first.wav" "pt" [ (env_speech, "second.wav", "en") ] eq_refl).
Defined.

(** * Further properties of the code *)

#[local] Set Warnings "-clear-no-such-hyp".

(** ** The result dictionary *)

(** The dictionary [process_video] returns always carries the identifier;
    it carries either [success = True] with transcript, summary and method
    and no error, or [success = False] with an error message and none of
    the three. *)
Theorem process_video_result_shape (env : Env) (url : string) (st : State)
    (d : list (string * Value)) (st' : State) :
  process_video env url st = (Ok d, st') ->
  exists video_id,
    video_id_of url = Some video_id /\
    dict_get d "video_id" = Some (VStr video_id) /\
    ((dict_get d "success" = Some (VBool true) /\
      (exists t s m,
         dict_get d "transcript" = Some (VStr t) /\
         dict_get d "summary" = Some (VStr s) /\
         dict_get d "method" = Some (VStr m)) /\
      dict_get d "error" = None)
     \/
     (dict_get d "success" = Some (VBool false) /\
      (exists msg, dict_get d "error" = Some (VStr msg)) /\
      dict_get d "transcript" = None /\
      dict_get d "summary" = None /\
      dict_get d "method" = None)).
Proof.
  intros H.
  destruct (process_video_returned_has_id env url st d st' H) as [video_id Hid].
  exists video_id. split; [done|].
  destruct (process_video_run env url video_id st Hid) as (r & st1 & st2 & Et & _ & E).
  rewrite E in H. injection H as <- <-.
  apply try_block_outcome in Et; [|done].
  destruct r as [d|e].
  - destruct Et as [(t & s & ->) _]. split; [done|]. left.
    split_and!; [done | by eexists _, _, _ | done].
  - split; [done|]. right. split_and!; [done | by eexists | done | done | done].
Qed.

Lemma process_video_result_shape_witness :
  exists video_id,
    video_id_of "https://www.youtube.com/watch?v=abc123" = Some video_id /\
    dict_get (returned run_captions) "video_id" = Some (VStr video_id) /\
    ((dict_get (returned run_captions) "success" = Some (VBool true) /\
      (exists t s m,
         dict_get (returned run_captions) "transcript" = Some (VStr t) /\
         dict_get (returned run_captions) "summary" = Some (VStr s) /\
         dict_get (returned run_captions) "method" = Some (VStr m)) /\
      dict_get (returned run_captions) "error" = None)
     \/
     (dict_get (returned run_captions) "success" = Some (VBool false) /\
      (exists msg, dict_get (returned run_captions) "error" = Some (VStr msg)) /\
      dict_get (returned run_captions) "transcript" = None /\
      dict_get (returned run_captions) "summary" = None /\
      dict_get (returned run_captions) "method" = None)).
Proof.
  apply (process_video_result_shape env_hello "https://www.youtube.com/watch?v=abc123"
           sample_state (returned run_captions) (snd run_captions)).
  vm_compute. reflexivity.
Defined.

(** ** The caption path *)

(** When the captions come back with a non-empty text, the run makes
    exactly two outside calls, the caption request and the chat request: no
    download, no ffmpeg, no model load, no file touched.  It returns the
    caption text and the summary tagged [youtube_transcript] when the chat
    request succeeds, and otherwise [success = False] with the wrapped
    summary error, the caption text being dropped. *)
Theorem process_video_caption_path (env : Env) (url video_id t : string) (st : State) :
  video_id_of url = Some video_id ->
  caption_text env video_id = Some t ->
  t <> "" ->
  fst (process_video env url st)
  = Ok (match ext_chat_completion env "gpt-3.5-turbo" summary_system_content
                (summary_user_content t) 500 with
        | inr s =>
            [ ("video_id", VStr video_id); ("transcript", VStr t); ("summary", VStr s);
              ("method", VStr "youtube_transcript"); ("success", VBool true) ]
        | inl e =>
            failure_dict video_id
              (exception ("Erro ao gerar resumo com OpenAI: " +:+ str e))
        end) /\
  trace (snd (process_video env url st))
  = trace st ++ [ EvGetTranscript video_id caption_languages;
                  EvChat "gpt-3.5-turbo" summary_system_content
                    (summary_user_content t) 500 ] /\
  files (snd (process_video env url st)) = files st /\
  self (snd (process_video env url st)) = self st /\
  models_built (snd (process_video env url st)) = models_built st /\
  temp_files (snd (process_video env url st)) = [].
Proof.
  intros Hid Hcap Hne.
  assert (Heqb : String.eqb t "" = false) by (by apply String.eqb_neq).
  assert (E : process_video env url st
    = (Ok (match ext_chat_completion env "gpt-3.5-turbo" summary_system_content
                   (summary_user_content t) 500 with
           | inr s =>
               [ ("video_id", VStr video_id); ("transcript", VStr t); ("summary", VStr s);
                 ("method", VStr "youtube_transcript"); ("success", VBool true) ]
           | inl e =>
               failure_dict video_id
                 (exception ("Erro ao gerar resumo com OpenAI: " +:+ str e))
           end),
       with_trace (fun l => l ++ [EvChat "gpt-3.5-turbo" summary_system_content
                                    (summary_user_content t) 500])
         (with_trace (fun l => l ++ [EvGetTranscript video_id caption_languages])
            (with_temp_files (fun _ => []) st)))).
  { unfold process_video. unfold bind at 1. rewrite extract_video_id_run, Hid.
    unfold bind at 1, modify at 1. unfold try_finally, try_except, try_block.
    unfold bind at 1. rewrite get_youtube_transcript_run.
    fold (caption_text env video_id). rewrite Hcap.
    cbn [truthy negb default from_option id]. rewrite Heqb. cbn [negb].
    unfold bind at 1, ret at 1. unfold bind at 1.
    unfold summarize_with_openai, try_except, chat_completions_create, emit, modify.
    unfold bind at 1.
    destruct (ext_chat_completion env "gpt-3.5-turbo" summary_system_content
                (summary_user_content t) 500); reflexivity. }
  rewrite E. simpl. by rewrite <- app_assoc.
Qed.

Lemma process_video_caption_path_witness :
  fst run_captions
  = Ok [ ("video_id", VStr "abc123"); ("transcript", VStr "hello world");
         ("summary", VStr "a summary");
         ("method", VStr "youtube_transcript"); ("success", VBool true) ] /\
  trace (snd run_captions)
  = trace sample_state
    ++ [ EvGetTranscript "abc123" caption_languages;
         EvChat "gpt-3.5-turbo" summary_system_content
           (summary_user_content "hello world") 500 ] /\
  files (snd run_captions) = files sample_state /\
  self (snd run_captions) = self sample_state /\
  models_built (snd run_captions) = models_built sample_state /\
  temp_files (snd run_captions) = [].
Proof.
  apply (process_video_caption_path env_hello "https://www.youtube.com/watch?v=abc123"
           "abc123" "hello world" sample_state).
  - vm_compute. reflexivity.
  - reflexivity.
  - discriminate.
Defined.

(** ** The download chain when nothing works *)

Lemma download_video_all_fail_run (env : Env) (url output_path : string) (st : State)
    (e1 e2 e3 e4 : Exn) (b1 b2 b3 b4 : bool) :
  ext_ydl_download env (ydl_opts_basic output_path) [url] = Failed e1 b1 ->
  ext_ydl_download env (ydl_opts_headers output_path) [url] = Failed e2 b2 ->
  ext_ydl_download env (ydl_opts_browser_cookies output_path) [url] = Failed e3 b3 ->
  ext_ydl_download env (ydl_opts_retries output_path) [url] = Failed e4 b4 ->
  exists st',
    download_video env url output_path st
    = (Raise (exception ("Erro ao baixar vídeo: " +:+ str e4)), st') /\
    trace st'
    = trace st ++ [ EvDownload (ydl_opts_basic output_path) [url]; EvSleep 1500;
                    EvDownload (ydl_opts_headers output_path) [url]; EvSleep 1500;
                    EvDownload (ydl_opts_browser_cookies output_path) [url]; EvSleep 1500;
                    EvSleepUniform 1000 2500;
                    EvDownload (ydl_opts_retries output_path) [url] ] /\
    files st' = (if b1 || b2 || b3 || b4 then {[output_path]} ∪ files st else files st) /\
    temp_files st' = temp_files st /\
    self st' = self st /\
    models_built st' = models_built st.
Proof.
  intros E1 E2 E3 E4. run_download.
  rewrite E1. destruct b1; simpl.
  all: rewrite E2; destruct b2; simpl.
  all: rewrite E3; destruct b3; simpl.
  all: rewrite E4; destruct b4; simpl.
  all: eexists; split_and!; [reflexivity | simpl; by rewrite <- !app_assoc
                             | simpl; set_solver | done | done | done].
Qed.

(** When all four strategies fail, the chain has made the four download
    calls in order, paused 1.5 s after each of the first three failures and
    not after the last, and slept the random delay once, before the fourth
    call. *)
Theorem download_video_all_fail_trace (env : Env) (url output_path : string) (st : State)
    (e1 e2 e3 e4 : Exn) (b1 b2 b3 b4 : bool) :
  ext_ydl_download env (ydl_opts_basic output_path) [url] = Failed e1 b1 ->
  ext_ydl_download env (ydl_opts_headers output_path) [url] = Failed e2 b2 ->
  ext_ydl_download env (ydl_opts_browser_cookies output_path) [url] = Failed e3 b3 ->
  ext_ydl_download env (ydl_opts_retries output_path) [url] = Failed e4 b4 ->
  trace (snd (download_video env url output_path st))
  = trace st ++ [ EvDownload (ydl_opts_basic output_path) [url]; EvSleep 1500;
                  EvDownload (ydl_opts_headers output_path) [url]; EvSleep 1500;
                  EvDownload (ydl_opts_browser_cookies output_path) [url]; EvSleep 1500;
                  EvSleepUniform 1000 2500;
                  EvDownload (ydl_opts_retries output_path) [url] ].
Proof.
  intros E1 E2 E3 E4.
  destruct (download_video_all_fail_run env url output_path st
              e1 e2 e3 e4 b1 b2 b3 b4 E1 E2 E3 E4) as (st' & -> & Ht & _).
  exact Ht.
Qed.

Lemma download_video_all_fail_trace_witness :
  trace (snd (download_video (env_download all_blocked) "https://youtu.be/abc123"
                "temp_video.mp4" sample_state))
  = trace sample_state
    ++ [ EvDownload (ydl_opts_basic "temp_video.mp4") ["https://youtu.be/abc123"];
         EvSleep 1500;
         EvDownload (ydl_opts_headers "temp_video.mp4") ["https://youtu.be/abc123"];
         EvSleep 1500;
         EvDownload (ydl_opts_browser_cookies "temp_video.mp4") ["https://youtu.be/abc123"];
         EvSleep 1500;
         EvSleepUniform 1000 2500;
         EvDownload (ydl_opts_retries "temp_video.mp4") ["https://youtu.be/abc123"] ].
Proof.
  exact (download_video_all_fail_trace (env_download all_blocked)
           "https://youtu.be/abc123" "temp_video.mp4" sample_state
           (exception "basic blocked") (exception "headers blocked")
           (exception "cookies blocked") (exception "retries blocked")
           false false false false eq_refl eq_refl eq_refl eq_refl).
Defined.

Lemma cleanup_nothing (env : Env) (st : State) :
  temp_files st = [] -> cleanup env st = (Ok tt, st).
Proof. intros H. unfold cleanup, bind, get. by rewrite H. Qed.

(** No usable captions and all four download strategies failing: the run
    returns [success = False] with the download error of the last strategy;
    after the caption request and the download chain it makes no further
    outside call (no ffmpeg, no model, no summary, no removal); a partial
    file left at [temp_video.mp4] by a failing download stays on disk. *)
Theorem process_video_download_fails (env : Env) (url video_id : string) (st : State)
    (e1 e2 e3 e4 : Exn) (b1 b2 b3 b4 : bool) :
  video_id_of url = Some video_id ->
  truthy (caption_text env video_id) = false ->
  ext_ydl_download env (ydl_opts_basic "temp_video.mp4") [url] = Failed e1 b1 ->
  ext_ydl_download env (ydl_opts_headers "temp_video.mp4") [url] = Failed e2 b2 ->
  ext_ydl_download env (ydl_opts_browser_cookies "temp_video.mp4") [url] = Failed e3 b3 ->
  ext_ydl_download env (ydl_opts_retries "temp_video.mp4") [url] = Failed e4 b4 ->
  exists st',
    process_video env url st
    = (Ok (failure_dict video_id (exception ("Erro ao baixar vídeo: " +:+ str e4))), st') /\
    trace st'
    = trace st ++ [ EvGetTranscript video_id caption_languages;
                    EvDownload (ydl_opts_basic "temp_video.mp4") [url]; EvSleep 1500;
                    EvDownload (ydl_opts_headers "temp_video.mp4") [url]; EvSleep 1500;
                    EvDownload (ydl_opts_browser_cookies "temp_video.mp4") [url];
                    EvSleep 1500; EvSleepUniform 1000 2500;
                    EvDownload (ydl_opts_retries "temp_video.mp4") [url] ] /\
    files st' = (if b1 || b2 || b3 || b4 then {["temp_video.mp4"]} ∪ files st
                 else files st) /\
    temp_files st' = [].
Proof.
  intros Hid Hcap E1 E2 E3 E4.
  set (st1 := with_trace (fun t => t ++ [EvGetTranscript video_id caption_languages])
                (with_temp_files (fun _ => []) st)).
  destruct (download_video_all_fail_run env url "temp_video.mp4" st1
              e1 e2 e3 e4 b1 b2 b3 b4 E1 E2 E3 E4)
    as (st2 & Ed & Ht & Hf & Htmp & _).
  exists st2. split_and!.
  - unfold process_video. unfold bind at 1. rewrite extract_video_id_run, Hid.
    unfold bind at 1, modify at 1. unfold try_finally, try_except, try_block.
    unfold bind at 1. rewrite get_youtube_transcript_run.
    fold (caption_text env video_id). fold st1. rewrite Hcap. cbn [negb].
    unfold bind at 1. unfold fallback_block. unfold bind at 1. rewrite Ed.
    unfold except_block, ret. rewrite cleanup_nothing; [done|].
    by rewrite Htmp.
  - rewrite Ht. subst st1. simpl. by rewrite <- app_assoc.
  - rewrite Hf. done.
  - by rewrite Htmp.
Qed.

Lemma process_video_download_fails_witness :
  exists st',
    process_video (env_download all_blocked) "https://youtu.be/abc123" sample_state
    = (Ok (failure_dict "abc123" (exception "Erro ao baixar vídeo: retries blocked")), st') /\
    trace st'
    = trace sample_state
      ++ [ EvGetTranscript "abc123" caption_languages;
           EvDownload (ydl_opts_basic "temp_video.mp4") ["https://youtu.be/abc123"];
           EvSleep 1500;
           EvDownload (ydl_opts_headers "temp_video.mp4") ["https://youtu.be/abc123"];
           EvSleep 1500;
           EvDownload (ydl_opts_browser_cookies "temp_video.mp4") ["https://youtu.be/abc123"];
           EvSleep 1500; EvSleepUniform 1000 2500;
           EvDownload (ydl_opts_retries "temp_video.mp4") ["https://youtu.be/abc123"] ] /\
    files st' = files sample_state /\
    temp_files st' = [].
Proof.
  apply (process_video_download_fails (env_download all_blocked)
           "https://youtu.be/abc123" "abc123" sample_state
           (exception "basic blocked") (exception "headers blocked")
           (exception "cookies blocked") (exception "retries blocked")
           false false false false).
  - vm_compute. reflexivity.
  - reflexivity.
  - reflexivity.
  - reflexivity.
  - reflexivity.
  - reflexivity.
Defined.

(** ** What a run may touch on disk *)

#[local] Instance outside_preorder (P : gset string) : PreOrder (outside P).
Proof.
  split; unfold outside.
  - by intros st p Hp.
  - intros st1 st2 st3 H12 H23 p Hp. by rewrite (H23 p Hp), (H12 p Hp).
Qed.

Lemma keeps_for_each_in {A : Type} (I : relation State) `{!PreOrder I}
    (xs : list A) (body : A -> M unit) :
  (forall x, x ∈ xs -> keeps I (body x)) -> keeps I (for_each xs body).
Proof.
  induction xs as [|x xs IH]; intros Hb; cbn [for_each].
  - by apply keeps_ret.
  - apply keeps_bind; [done | apply Hb; set_solver | intros _; apply IH].
    intros y Hy. apply Hb. set_solver.
Qed.

Ltac outside_side :=
  unfold outside; intros; simpl in *; set_solver.

Section Disk.

Variable env : Env.
Variable P : gset string.






Lemma cleanup_outside (st : State) :
  (forall p, p ∈ temp_files st -> p ∈ P) ->
  outside P st (snd (cleanup env st)).
Proof.
  intros Hall. unfold cleanup, bind at 1, get.
  apply keeps_for_each_in; [apply _|].
  intros file_path Hin. specialize (Hall file_path Hin).
  keeps_auto; outside_side.
Qed.

End Disk.








(** ** A failing ffmpeg *)

(** The video has been downloaded and ffmpeg fails after having started its
    output file: the run returns [success = False]; only the video was
    recorded in [temp_files], so the started [temp_audio.wav] is still on
    disk when [process_video] returns. *)
Theorem process_video_leaves_partial_audio (env : Env) (url video_id : string)
    (st : State) (e : Exn) :
  video_id_of url = Some video_id ->
  truthy (caption_text env video_id) = false ->
  ext_ydl_download env (ydl_opts_basic "temp_video.mp4") [url] = Done ->
  (forall cmd, ext_subprocess_run env cmd = Failed e true) ->
  dict_get (returned (process_video env url st)) "success" = Some (VBool false) /\
  temp_files (snd (process_video env url st)) = ["temp_video.mp4"] /\
  "temp_audio.wav" ∈ files (snd (process_video env url st)).
Proof.
  intros Hid Hcap Hdl Hff.
  destruct (process_video_run env url video_id st Hid) as (r & st1 & st2 & Et & Ec & E).
  assert (Hrun : exists e', r = Raise e' /\ temp_files st1 = ["temp_video.mp4"] /\
                            "temp_audio.wav" ∈ files st1).
  { revert Et. unfold try_block. unfold bind at 1. rewrite get_youtube_transcript_run.
    fold (caption_text env video_id). rewrite Hcap. cbn [negb].
    unfold bind at 1. unfold fallback_block. unfold bind at 1.
    run_download. rewrite Hdl. cbn -[extract_audio_ffmpeg].
    unfold extract_audio_ffmpeg, os_path_exists, subprocess_run, emit, modify,
      try_except, run_tool.
    unfold bind, get, ret, raise. cbn - [bool_decide elem_of union].
    rewrite Hff. cbn - [bool_decide elem_of union].
    destruct (exn_class e); intros [= <- <-]; eexists; split_and!;
      try reflexivity; simpl; set_solver. }
  destruct Hrun as (e' & -> & Htmp & Hin).
  rewrite E. unfold returned. cbn [fst snd].
  destruct (cleanup_run env st1) as (st2' & Ec' & T & _).
  rewrite Ec in Ec'. injection Ec' as <-.
  split_and!; [done | by rewrite T |].
  pose proof (cleanup_outside env {["temp_video.mp4"]} st1) as Hout.
  rewrite Ec in Hout. cbn [snd] in Hout.
  apply Hout; [rewrite Htmp; set_solver | set_solver | done].
Qed.

Lemma process_video_leaves_partial_audio_witness :
  dict_get (returned (process_video env_ffmpeg_breaks "https://youtu.be/abc123" sample_state))
    "success" = Some (VBool false) /\
  temp_files (snd (process_video env_ffmpeg_breaks "https://youtu.be/abc123" sample_state))
  = ["temp_video.mp4"] /\
  "temp_audio.wav"
    ∈ files (snd (process_video env_ffmpeg_breaks "https://youtu.be/abc123" sample_state)).
Proof.
  apply (process_video_leaves_partial_audio env_ffmpeg_breaks "https://youtu.be/abc123"
           "abc123" sample_state
           {| exn_class := CalledProcessError;
              exn_msg := "Command returned non-zero exit status 1." |}).
  - vm_compute. reflexivity.
  - reflexivity.
  - reflexivity.
  - intros cmd. reflexivity.
Defined.

(** ** Errors of the speech model *)

(** A load that fails is not remembered: the error leaves
    [transcribe_audio_whisper] as it is (it is not wrapped), the object still
    holds no model, and the next call requests the load again; when that one
    succeeds the model is stored then. *)
Theorem transcribe_retries_failed_load (env1 env2 : Env)
    (audio1 language1 audio2 language2 : string) (st : State) (e : Exn) :
  whisper_model (self st) = None ->
  ext_load_model env1 (whisper_model_size (self st)) = Some e ->
  ext_load_model env2 (whisper_model_size (self st)) = None ->
  let run1 := transcribe_audio_whisper env1 audio1 language1 st in
  let run2 := transcribe_audio_whisper env2 audio2 language2 (snd run1) in
  fst run1 = Raise e /\
  whisper_model (self (snd run1)) = None /\
  models_built (snd run1) = models_built st /\
  whisper_model (self (snd run2))
  = Some {| model_size := whisper_model_size (self st); model_serial := models_built st |} /\
  loads_of (trace (snd run2))
  = loads_of (trace st) ++ [whisper_model_size (self st); whisper_model_size (self st)].
Proof.
  intros Hnone Hfail Hok run1 run2.
  pose proof (transcribe_without_model env1 audio1 language1 st Hnone) as H1.
  rewrite Hfail in H1. fold run1 in H1.
  assert (Hnone1 : whisper_model (self (snd run1)) = None) by (by rewrite H1).
  pose proof (transcribe_without_model env2 audio2 language2 (snd run1) Hnone1) as H2.
  fold run2 in H2.
  assert (Hsize : whisper_model_size (self (snd run1)) = whisper_model_size (self st))
    by (by rewrite H1).
  assert (Hbuilt : models_built (snd run1) = models_built st) by (by rewrite H1).
  rewrite Hsize, Hok in H2. cbn zeta in H2. destruct H2 as (Hs2 & _ & Ht2).
  split_and!; [by rewrite H1 | done | done | |].
  - rewrite Hs2, Hbuilt. reflexivity.
  - rewrite Ht2, H1. simpl. rewrite <- app_assoc, loads_of_app. reflexivity.
Qed.

Lemma transcribe_retries_failed_load_witness :
  let run1 := transcribe_audio_whisper env_no_model "a.wav" "pt" sample_state in
  let run2 := transcribe_audio_whisper env_speech "a.wav" "pt" (snd run1) in
  fst run1 = Raise {| exn_class := OtherError "RuntimeError"; exn_msg := "out of memory" |} /\
  whisper_model (self (snd run1)) = None /\
  models_built (snd run1) = models_built sample_state /\
  whisper_model (self (snd run2)) = Some {| model_size := "base"; model_serial := 0 |} /\
  loads_of (trace (snd run2)) = loads_of (trace sample_state) ++ ["base"; "base"].
Proof.
  exact (transcribe_retries_failed_load env_no_model env_speech "a.wav" "pt" "a.wav" "pt"
           sample_state _ eq_refl eq_refl eq_refl).
Defined.

(** With a model held, a transcription that fails raises a plain
    [Exception] whose message is the failure's message behind
    ["Erro na transcrição: "]; the model stays in the object, and a
    transcription that succeeds returns its text unchanged. *)
Theorem transcribe_failure_is_wrapped (env : Env) (audio_path language : string)
    (st : State) (m : Model) :
  whisper_model (self st) = Some m ->
  fst (transcribe_audio_whisper env audio_path language st)
  = match ext_transcribe env m audio_path language with
    | inl e => Raise (exception ("Erro na transcrição: " +:+ str e))
    | inr result_text => Ok result_text
    end /\
  whisper_model (self (snd (transcribe_audio_whisper env audio_path language st))) = Some m.
Proof.
  intros Hm.
  destruct (transcribe_with_model env audio_path language st m Hm) as (Hs & _ & _).
  split; [|by rewrite Hs].
  unfold transcribe_audio_whisper, try_except, model_transcribe, emit, modify.
  unfold bind, get, ret. rewrite Hm. simpl. rewrite Hm. simpl.
  by destruct (ext_transcribe env m audio_path language).
Qed.

Lemma transcribe_failure_is_wrapped_witness :
  fst (transcribe_audio_whisper env_bad_audio "b.wav" "pt" loaded_state)
  = Raise (exception "Erro na transcrição: corrupt audio") /\
  whisper_model (self (snd (transcribe_audio_whisper env_bad_audio "b.wav" "pt" loaded_state)))
  = Some {| model_size := "base"; model_serial := 0 |}.
Proof.
  exact (transcribe_failure_is_wrapped env_bad_audio "b.wav" "pt" loaded_state
           {| model_size := "base"; model_serial := 0 |} eq_refl).
Defined.

(** ** Errors of the audio extraction *)

(** [extract_audio_ffmpeg] runs one command, the local [./ffmpeg.exe] when a
    file [ffmpeg.exe] is there and [ffmpeg] otherwise; when it returns, the
    audio file is on disk; no [CalledProcessError] and no [FileNotFoundError]
    ever leaves it (they come out as plain exceptions), while a failure of
    any other class leaves it unchanged. *)
Theorem extract_audio_ffmpeg_behaviour (env : Env) (video_path audio_path : string)
    (st : State) :
  let run := extract_audio_ffmpeg env video_path audio_path st in
  let cmd :=
    [ (if bool_decide ("ffmpeg.exe" ∈ files st) then "./ffmpeg.exe" else "ffmpeg");
      "-i"; video_path; "-vn"; "-acodec"; "pcm_s16le";
      "-ar"; "16000"; "-ac"; "1"; "-y"; audio_path ] in
  trace (snd run) = trace st ++ [EvSubprocess cmd] /\
  (fst run = Ok tt -> audio_path ∈ files (snd run)) /\
  (forall e, fst run = Raise e ->
     exn_class e <> CalledProcessError /\ exn_class e <> FileNotFoundError /\
     exists e0 b, ext_subprocess_run env cmd = Failed e0 b /\
       (exn_class e0 <> CalledProcessError -> exn_class e0 <> FileNotFoundError -> e = e0)).
Proof.
  intros run cmd. subst run.
  unfold extract_audio_ffmpeg, os_path_exists, subprocess_run, emit, modify,
    try_except, run_tool.
  unfold bind, get, ret, raise. cbn -[bool_decide elem_of union].
  fold cmd.
  destruct (bool_decide ("ffmpeg.exe" ∈ files st)) eqn:Hexe;
    destruct (ext_subprocess_run env cmd) as [|e0 b] eqn:Hrun;
    cbn -[elem_of union].
  1,3: split_and!; [done | intros _; set_solver | done].
  all: destruct b; cbn -[elem_of union];
    destruct (exn_class e0) eqn:Hclass; cbn -[elem_of union];
    (split_and!; [done | done |]);
    intros e [= <-]; (split_and!; [by rewrite ?Hclass | by rewrite ?Hclass |]);
    eexists _, _; (split; [reflexivity | ]); try done.
Qed.

Lemma extract_audio_ffmpeg_behaviour_witness :
  "temp_audio.wav"
    ∈ files (snd (extract_audio_ffmpeg env_speech "temp_video.mp4" "temp_audio.wav"
                    sample_state)).
Proof.
  apply (extract_audio_ffmpeg_behaviour env_speech "temp_video.mp4" "temp_audio.wav"
           sample_state).
  reflexivity.
Defined.

(** ** One pass over the strategies *)

#[local] Instance same_downloads_preorder : PreOrder same_downloads.
Proof. split; unfold same_downloads; [by intros ? | by intros ? ? ? -> ->]. Qed.

Ltac downloads_side :=
  unfold same_downloads; intros; simpl; rewrite ?downloads_of_app; simpl;
  rewrite ?app_nil_r; reflexivity.

Section Downloads.

Variable env : Env.

Lemma get_youtube_transcript_same_downloads (video_id : string) :
  keeps same_downloads (get_youtube_transcript env video_id).
Proof. keeps_auto; downloads_side. Qed.

Lemma extract_audio_ffmpeg_same_downloads (video_path audio_path : string) :
  keeps same_downloads (extract_audio_ffmpeg env video_path audio_path).
Proof. keeps_auto; downloads_side. Qed.

Lemma transcribe_audio_whisper_same_downloads (audio_path language : string) :
  keeps same_downloads (transcribe_audio_whisper env audio_path language).
Proof. keeps_auto; downloads_side. Qed.

Lemma summarize_with_openai_same_downloads (text' : string) (max_tokens : nat) :
  keeps same_downloads (summarize_with_openai env text' max_tokens).
Proof. keeps_auto; downloads_side. Qed.

Lemma cleanup_same_downloads : keeps same_downloads (cleanup env).
Proof. keeps_auto; downloads_side. Qed.

(** Whatever the four outcomes, [download_video] makes between one and four
    download calls: a non-empty prefix of the strategies' option sets. *)
Lemma download_video_downloads (url output_path : string) (st : State) :
  exists l,
    l `prefix_of` attempts output_path /\ l <> [] /\
    downloads_of (trace (snd (download_video env url output_path st)))
    = downloads_of (trace st) ++ l.
Proof.
  run_download.
  destruct (ext_ydl_download env (ydl_opts_basic output_path) [url]) as [|e1 [|]]; simpl.
  1:{ exists [ydl_opts_basic output_path]. rewrite downloads_of_app.
      split_and!; [by eexists | done | done]. }
  all: destruct (ext_ydl_download env (ydl_opts_headers output_path) [url]) as [|e2 [|]];
    simpl.
  1,4: (exists (take 2 (attempts output_path)); rewrite !downloads_of_app; simpl;
        rewrite <- !app_assoc; split_and!; [by eexists | done | done]).
  all: destruct (ext_ydl_download env (ydl_opts_browser_cookies output_path) [url])
    as [|e3 [|]]; simpl.
  1,4,7,10: (exists (take 3 (attempts output_path)); rewrite !downloads_of_app; simpl;
             rewrite <- !app_assoc; split_and!; [by eexists | done | done]).
  all: exists (attempts output_path).
  all: destruct (ext_ydl_download env (ydl_opts_retries output_path) [url]) as [|e4 [|]];
    simpl; rewrite !downloads_of_app; simpl; rewrite <- !app_assoc;
    (split_and!; [done | done | done]).
Qed.

End Downloads.

(** Every call of [process_video], whatever the outside world does, makes
    its download calls as one prefix of the four strategies in their order:
    the chain is entered at most once and no strategy is repeated, skipped
    or reordered. *)
Theorem process_video_one_pass (env : Env) (url : string) (st : State) :
  exists l,
    l `prefix_of` attempts "temp_video.mp4" /\
    downloads_of (trace (snd (process_video env url st)))
    = downloads_of (trace st) ++ l.
Proof.
  destruct (video_id_of url) as [video_id|] eqn:Hid.
  2:{ exists []. rewrite (process_video_raises_without_id env url st Hid).
      rewrite app_nil_r. split; [apply prefix_nil | done]. }
  destruct (process_video_run env url video_id st Hid) as (r & st1 & st2 & Et & Ec & E).
  rewrite E. cbn [snd].
  pose proof (cleanup_same_downloads env st1) as Hc.
  rewrite Ec in Hc. unfold same_downloads in Hc. cbn [snd] in Hc. rewrite Hc.
  clear E Ec Hc st2.
  unfold try_block in Et. unfold bind at 1 in Et.
  rewrite get_youtube_transcript_run in Et.
  set (st0 := with_trace _ _) in Et.
  assert (H0 : downloads_of (trace st0) = downloads_of (trace st))
    by (subst st0; simpl; rewrite downloads_of_app; simpl; by rewrite app_nil_r).
  assert (Htail : forall (transcript : string) (sa : State),
            same_downloads sa
              (snd ((summary <- summarize_with_openai env transcript 500 ;;
                     st3 <- get ;;
                     ret [ ("video_id", VStr video_id); ("transcript", VStr transcript);
                           ("summary", VStr summary);
                           ("method", VStr (match temp_files st3 with
                                            | [] => "youtube_transcript"
                                            | _ :: _ => "whisper"
                                            end));
                           ("success", VBool true) ]) sa))).
  { intros transcript sa.
    apply (keeps_bind same_downloads); [apply summarize_with_openai_same_downloads|].
    intros summary. keeps_auto; downloads_side. }
  destruct (negb (truthy _)).
  - unfold bind at 1, fallback_block in Et. unfold bind at 1 in Et.
    destruct (download_video_downloads env url "temp_video.mp4" st0) as (l & Hl & _ & Hd).
    exists l. split; [done|]. rewrite <- H0, <- Hd.
    destruct (download_video env url "temp_video.mp4" st0) as [[video_path|e] sd];
      cbn [snd] in *.
    2:{ by injection Et as _ <-. }
    assert (Hrest : forall sb,
              same_downloads sb
                (snd ((modify (with_temp_files (fun l => l ++ [video_path])) ;;
                       extract_audio_ffmpeg env video_path "temp_audio.wav" ;;
                       modify (with_temp_files (fun l => l ++ ["temp_audio.wav"])) ;;
                       transcribe_audio_whisper env "temp_audio.wav" "pt") sb))).
    { intros sb.
      apply (keeps_bind same_downloads); [keeps_auto; downloads_side | intros _].
      apply (keeps_bind same_downloads);
        [apply extract_audio_ffmpeg_same_downloads | intros _].
      apply (keeps_bind same_downloads); [keeps_auto; downloads_side | intros _].
      apply transcribe_audio_whisper_same_downloads. }
    specialize (Hrest sd). unfold same_downloads in Hrest.
    destruct ((modify (with_temp_files (fun l => l ++ [video_path])) ;; _) sd)
      as [[transcript|e] se]; cbn [snd] in *.
    + specialize (Htail transcript se). rewrite Et in Htail.
      unfold same_downloads in Htail. cbn [snd] in Htail. congruence.
    + injection Et as _ <-. done.
  - exists []. rewrite app_nil_r. split; [apply prefix_nil|].
    unfold bind at 1, ret at 1 in Et.
    match type of Et with
    | context [summarize_with_openai env ?t 500] => specialize (Htail t st0)
    end.
    rewrite Et in Htail. unfold same_downloads in Htail. cbn [snd] in Htail. congruence.
Qed.

(** ** More on the identifier *)

(** Everything after the identifier is dropped: behind any scheme and host
    free of the letter y, each of the three address forms yields the
    identifier up to the first [&], [?], [#] or line feed. *)
Theorem extract_video_id_drops_parameters (pre head id rest : string) (st : State) :
  all_chars not_y pre = true ->
  head ∈ id_heads ->
  valid_id id ->
  stops id_char rest ->
  _extract_video_id (pre +:+ head +:+ id +:+ rest) st = (Ok id, st).
Proof. apply extract_after_prefix. Qed.

Lemma extract_video_id_drops_parameters_witness :
  _extract_video_id "http://m.youtube.com/watch?v=dQw4w9WgXcQ&t=42s#top" sample_state
  = (Ok "dQw4w9WgXcQ", sample_state).
Proof.
  apply (extract_video_id_drops_parameters "http://m." "youtube.com/watch?v="
           "dQw4w9WgXcQ" "&t=42s#top" sample_state).
  - reflexivity.
  - unfold id_heads. set_solver.
  - split; [discriminate | reflexivity].
  - reflexivity.
Defined.

Lemma strip_prefix_app_none (l l' s : string) :
  Re.strip_prefix l s = None -> Re.strip_prefix (l +:+ l') s = None.
Proof.
  revert s. induction l as [|a l IH]; intros s; cbn [Re.strip_prefix String.append].
  - done.
  - destruct s as [|b s]; [done|]. destruct (Ascii.eqb a b); [apply IH | done].
Qed.

Lemma search_step (r : Re.regex) (a : ascii) (s : string) :
  Re.match_here r (String a s) = None -> Re.search r (String a s) = Re.search r s.
Proof. intros H. cbn [Re.search]. by rewrite H. Qed.

Lemma search_here (r : Re.regex) (s : string) (m : Re.Match) :
  Re.match_here r s = Some m -> Re.search r s = Some m.
Proof. intros H. destruct s; cbn [Re.search]; by rewrite H. Qed.

(** Neither pattern matches at a position where neither [youtube.com] nor
    [youtu.be] begins. *)
Lemma patterns_need_host (s : string) :
  Re.strip_prefix "youtube.com" s = None ->
  Re.strip_prefix "youtu.be" s = None ->
  Re.match_here pattern1 s = None /\ Re.match_here pattern2 s = None.
Proof.
  intros Hlong Hshort. unfold Re.match_here, pattern1, pattern2.
  rewrite !rmatch_seq, !rmatch_alt, !rmatch_lit.
  assert (A1 : Re.strip_prefix "youtube.com/watch?v=" s = None)
    by exact (strip_prefix_app_none "youtube.com" "/watch?v=" s Hlong).
  assert (A2 : Re.strip_prefix "youtu.be/" s = None)
    by exact (strip_prefix_app_none "youtu.be" "/" s Hshort).
  assert (A3 : Re.strip_prefix "youtube.com/embed/" s = None)
    by exact (strip_prefix_app_none "youtube.com" "/embed/" s Hlong).
  assert (A4 : Re.strip_prefix "youtube.com/watch?" s = None)
    by exact (strip_prefix_app_none "youtube.com" "/watch?" s Hlong).
  by rewrite A1, A2, A3, A4.
Qed.

Lemma search_needs_host (s : string) :
  str_not_in "youtube.com" s = true ->
  str_not_in "youtu.be" s = true ->
  Re.search pattern1 s = None /\ Re.search pattern2 s = None.
Proof.
  induction s as [|a s IH]; intros Hlong Hshort.
  - split; reflexivity.
  - cbn [str_not_in] in Hlong, Hshort.
    destruct (Re.strip_prefix "youtube.com" (String a s)) eqn:El; [done|].
    destruct (Re.strip_prefix "youtu.be" (String a s)) eqn:Es; [done|].
    destruct (patterns_need_host (String a s) El Es) as [H1 H2].
    destruct (IH Hlong Hshort) as [IH1 IH2].
    rewrite (search_step _ _ _ H1), (search_step _ _ _ H2). done.
Qed.

(** The test of [app.py] refuses nothing the extractor would accept: an
    address in which neither [youtube.com] nor [youtu.be] occurs makes
    [_extract_video_id] raise its [ValueError]. *)
Theorem app_refusal_is_sound (video_url : string) (st : State) :
  app_refuses video_url = true ->
  _extract_video_id video_url st
  = (Raise {| exn_class := ValueError; exn_msg := "URL do YouTube inválida" |}, st).
Proof.
  unfold app_refuses. intros [Hlong Hshort]%andb_prop.
  destruct (search_needs_host video_url Hlong Hshort) as [H1 H2].
  unfold _extract_video_id, patterns, first_match. by rewrite H1, H2.
Qed.

Lemma app_refusal_is_sound_witness :
  _extract_video_id "https://vimeo.com/76979871" sample_state
  = (Raise {| exn_class := ValueError; exn_msg := "URL do YouTube inválida" |},
     sample_state).
Proof.
  apply (app_refusal_is_sound "https://vimeo.com/76979871" sample_state).
  reflexivity.
Defined.

(** *** Greedy matching and the second pattern *)

Lemma rmatch_star {R : Type} (c : ascii -> bool) (s : string) (cap : option string)
    (k : string -> string -> option string -> option R) :
  Re.rmatch (Re.Star c) s cap k = Re.greedy c EmptyString s (fun m rest => k m rest cap).
Proof. reflexivity. Qed.

(** A greedy class fails when the rest of the pattern fails at every point
    it could stop. *)
Lemma greedy_none {R : Type} (c : ascii -> bool) (s acc : string)
    (k : string -> string -> option R) :
  fails_on_suffixes k s -> Re.greedy c acc s k = None.
Proof.
  revert acc. induction s as [|a s IH]; intros acc [Hhere Hlater]; cbn [Re.greedy].
  - apply Hhere.
  - destruct (c a); [|apply Hhere].
    rewrite (IH _ Hlater). apply Hhere.
Qed.

(** A greedy class gives back what it took until the rest of the pattern
    matches: it settles at the last point where it does. *)
Lemma greedy_settles {R : Type} (c : ascii -> bool) (q s acc : string)
    (k : string -> string -> option R) (r : R) :
  all_chars c q = true ->
  k (acc +:+ q) s = Some r ->
  match s with
  | EmptyString => True
  | String _ s' => fails_on_suffixes k s'
  end ->
  Re.greedy c acc (q +:+ s) k = Some r.
Proof.
  intros Hq. revert acc. induction q as [|a q IH]; intros acc Hk Hlater.
  - cbn [String.append]. rewrite append_empty_r in Hk.
    destruct s as [|b s]; cbn [Re.greedy]; [done|].
    destruct (c b); [|done]. by rewrite (greedy_none c s _ k Hlater).
  - cbn [all_chars] in Hq. apply andb_prop in Hq as [Ha Hq].
    cbn [String.append Re.greedy]. rewrite Ha.
    rewrite (IH Hq (acc +:+ String a EmptyString)); [done | | done].
    by rewrite append_assoc_char.
Qed.

Lemma fails_without_v {R : Type} (k : string -> string -> option R) (s : string) :
  (forall m w, Re.strip_prefix "v=" w = None -> k m w = None) ->
  str_not_in "v=" s = true ->
  fails_on_suffixes k s.
Proof.
  intros Hk. induction s as [|a s IH]; intros Hfree; cbn [str_not_in] in Hfree.
  - split; [|done]. intros m. by apply Hk.
  - destruct (Re.strip_prefix "v=" (String a s)) eqn:E; [done|].
    split; [intros m; by apply Hk | by apply IH].
Qed.

Lemma str_not_in_longer (l l' s : string) :
  str_not_in l s = true -> str_not_in (l +:+ l') s = true.
Proof.
  induction s as [|a s IH]; cbn [str_not_in].
  - destruct (Re.strip_prefix l EmptyString) eqn:E; [done|].
    by rewrite (strip_prefix_app_none l l' _ E).
  - destruct (Re.strip_prefix l (String a s)) eqn:E; [done|].
    rewrite (strip_prefix_app_none l l' _ E). apply IH.
Qed.

Lemma pattern2_skips_prefix (pre s : string) :
  all_chars not_y pre = true ->
  Re.search pattern2 (pre +:+ s) = Re.search pattern2 s.
Proof.
  induction pre as [|a pre IH]; cbn [String.append all_chars]; [done|].
  intros [Ha Hpre]%andb_prop.
  rewrite search_step; [by apply IH|].
  apply negb_true_iff in Ha.
  unfold Re.match_here, pattern2. rewrite rmatch_seq, rmatch_lit.
  by rewrite (strip_prefix_head _ _ _ _ Ha).
Qed.

(** The second pattern at [youtube.com/watch?]: the greedy [.*] runs to the
    end of the line and comes back to the last [v=]. *)
Lemma pattern2_captures_last (q id rest : string) :
  all_chars dot q = true ->
  valid_id id ->
  stops id_char rest ->
  str_not_in "v=" (id +:+ rest) = true ->
  Re.match_here pattern2 ("youtube.com/watch?" +:+ q +:+ "v=" +:+ id +:+ rest)
  = Some {| Re.group0 := "youtube.com/watch?" +:+ q +:+ "v=" +:+ id;
            Re.group1 := Some id |}.
Proof.
  intros Hq [Hne Hall] Hstop Hfree.
  unfold Re.match_here, pattern2.
  rewrite rmatch_seq, rmatch_lit, strip_prefix_app.
  rewrite rmatch_seq, rmatch_star.
  apply greedy_settles; [done | |].
  - cbn [String.append].
    rewrite rmatch_seq, rmatch_lit.
    change (String "v" (String "=" (id +:+ rest))) with ("v=" +:+ id +:+ rest).
    rewrite strip_prefix_app.
    by rewrite (rmatch_id_group id rest _ _ _ Hne Hall Hstop eq_refl).
  - change ("v=" +:+ id +:+ rest) with (String "v" (String "=" (id +:+ rest))).
    assert (Hk : forall (m w : string), Re.strip_prefix "v=" w = None ->
              Re.rmatch (Re.Seq (Re.Lit "v=") (Re.Group (Re.Plus id_char))) w None
                (fun m2 rest2 cap2 =>
                   Some {| Re.group0 := "youtube.com/watch?" +:+ m +:+ m2;
                           Re.group1 := cap2 |}) = None).
    { intros m w Hw. by rewrite rmatch_seq, rmatch_lit, Hw. }
    split; [intros m; by apply Hk | by apply fails_without_v].
Qed.

(** With other parameters before it, the last [v=] parameter of the line
    wins: behind [youtube.com/watch?], a query that does not begin with [v=],
    and no later [v=], the identifier after that [v=] is extracted, up to the
    first delimiter. *)
Theorem extract_video_id_last_v_parameter (pre q id rest : string) (st : State) :
  all_chars not_y pre = true ->
  all_chars dot q = true ->
  starts_with "v=" (q +:+ "v=" +:+ id +:+ rest) = false ->
  str_not_in "youtu" (q +:+ "v=" +:+ id +:+ rest) = true ->
  valid_id id ->
  stops id_char rest ->
  str_not_in "v=" (id +:+ rest) = true ->
  _extract_video_id (pre +:+ "youtube.com/watch?" +:+ q +:+ "v=" +:+ id +:+ rest) st
  = (Ok id, st).
Proof.
  intros Hpre Hq Hstart Hyoutu Hid Hstop Hfree.
  set (tail := q +:+ "v=" +:+ id +:+ rest) in *.
  assert (Hv : Re.strip_prefix "v=" tail = None)
    by (unfold starts_with in Hstart; by destruct (Re.strip_prefix "v=" tail)).
  assert (H1 : Re.search pattern1 (pre +:+ "youtube.com/watch?" +:+ tail) = None).
  { rewrite pattern1_skips_prefix by done.
    change ("youtube.com/watch?" +:+ tail)
      with (String "y" ("outube.com/watch?" +:+ tail)).
    rewrite search_step.
    - rewrite pattern1_skips_prefix by reflexivity.
      apply search_needs_host.
      + exact (str_not_in_longer "youtu" "be.com" tail Hyoutu).
      + exact (str_not_in_longer "youtu" ".be" tail Hyoutu).
    - unfold Re.match_here, pattern1. rewrite rmatch_seq, !rmatch_alt, !rmatch_lit.
      change (String "y" ("outube.com/watch?" +:+ tail))
        with ("youtube.com/watch?" +:+ tail).
      assert (A1 : Re.strip_prefix "youtube.com/watch?v=" ("youtube.com/watch?" +:+ tail)
                   = None) by exact Hv.
      assert (A2 : Re.strip_prefix "youtu.be/" ("youtube.com/watch?" +:+ tail) = None)
        by reflexivity.
      assert (A3 : Re.strip_prefix "youtube.com/embed/" ("youtube.com/watch?" +:+ tail)
                   = None) by reflexivity.
      by rewrite A1, A2, A3. }
  assert (H2 : Re.search pattern2 (pre +:+ "youtube.com/watch?" +:+ tail)
               = Some {| Re.group0 := "youtube.com/watch?" +:+ q +:+ "v=" +:+ id;
                         Re.group1 := Some id |}).
  { rewrite pattern2_skips_prefix by done.
    apply search_here. by apply pattern2_captures_last. }
  unfold _extract_video_id, patterns, first_match. by rewrite H1, H2.
Qed.

Lemma extract_video_id_last_v_parameter_witness :
  _extract_video_id "https://www.youtube.com/watch?feature=share&v=abc123&t=10s"
    sample_state
  = (Ok "abc123", sample_state).
Proof.
  apply (extract_video_id_last_v_parameter "https://www." "feature=share&" "abc123"
           "&t=10s" sample_state).
  - reflexivity.
  - reflexivity.
  - reflexivity.
  - reflexivity.
  - split; [discriminate | reflexivity].
  - reflexivity.
  - reflexivity.
Defined.

(** ** Saving what [process_video] returned *)



(** A result marked successful but lacking its summary: [save_results]
    raises [KeyError('summary')], after the output file has been opened,
    which therefore exists when the error comes out. *)
Theorem save_results_missing_summary (d : list (string * Value)) (output_file : string)
    (flag v_id v_method : Value) (t : string) (sd : State) :
  dict_get d "success" = Some flag ->
  py_truth flag = true ->
  dict_get d "video_id" = Some v_id ->
  dict_get d "method" = Some v_method ->
  dict_get d "transcript" = Some (VStr t) ->
  dict_get d "summary" = None ->
  fst (save_results None d output_file sd) = Raise (KeyError "summary") /\
  output_file ∈ files (snd (save_results None d output_file sd)).
Proof.
  intros Hflag Htrue Hid Hmethod Ht Hs.
  unfold save_results, save_results_text, dict_item.
  rewrite Hflag, Htrue, Hid, Hmethod, Ht, Hs.
  unfold bind, modify, raise. simpl. split; [done | set_solver].
Qed.

Lemma save_results_missing_summary_witness :
  fst (save_results None
         [ ("video_id", VStr "abc123"); ("transcript", VStr "hello");
           ("method", VStr "whisper"); ("success", VBool true) ]
         "resultado.txt" sample_state) = Raise (KeyError "summary") /\
  "resultado.txt"
    ∈ files (snd (save_results None
                    [ ("video_id", VStr "abc123"); ("transcript", VStr "hello");
                      ("method", VStr "whisper"); ("success", VBool true) ]
                    "resultado.txt" sample_state)).
Proof.
  apply (save_results_missing_summary _ "resultado.txt" (VBool true) (VStr "abc123")
           (VStr "whisper") "hello" sample_state); reflexivity.
Defined.

(** ** The HTTP layer of [main.py] *)

Section Http.

Variable http_str : nat -> string -> string.

(** [POST /transcribe] with the API key configured and an address in which
    no pattern finds an identifier: the [ValueError] of [process_video] is
    caught by the handler, which answers [success = False] with the video
    id [unknown] and the error behind ["Erro interno: "]; no outside call
    is made. *)
Theorem transcribe_video_malformed_url (env : Env) (key : string)
    (request : MainPy.VideoRequest) (start_time end_time : Z) (sv : MainPy.Server) :
  key <> "" ->
  video_id_of (MainPy.url request) = None ->
  let run := MainPy.transcribe_video http_str env (Some key) request
               start_time end_time sv in
  fst run
  = {| MainPy.success := false; MainPy.video_id := "unknown";
       MainPy.transcript := None; MainPy.summary := None; MainPy.method := None;
       MainPy.processing_time := Some (end_time - start_time)%Z;
       MainPy.error := Some "Erro interno: URL do YouTube inválida" |} /\
  MainPy.transcriber_instance (snd run) = Some MainPy.TheTranscriber /\
  trace (MainPy.process (snd run)) = trace (MainPy.process sv) /\
  files (MainPy.process (snd run)) = files (MainPy.process sv).
Proof.
  intros Hkey Hid run. subst run.
  assert (Heqb : String.eqb key "" = false) by (by apply String.eqb_neq).
  unfold MainPy.transcribe_video, MainPy.get_transcriber, YouTubeTranscriber_init.
  destruct (MainPy.transcriber_instance sv) as [[]|] eqn:Hinst.
  - rewrite (process_video_raises_without_id env _ _ Hid). simpl.
    by rewrite Hinst.
  - cbn [truthy negb default from_option id]. rewrite Heqb. cbn [negb].
    rewrite (process_video_raises_without_id env _ _ Hid). done.
Qed.

Lemma within_budget_same (st st' : State) :
  self st' = self st -> models_built st' = models_built st -> within_budget st st'.
Proof. intros Hs Hb. unfold within_budget, build_budget. by rewrite Hs, Hb. Qed.

End Http.

#[local] Instance within_budget_preorder : PreOrder within_budget.
Proof.
  split; unfold within_budget.
  - by intros st.
  - intros a b c Hab Hbc. by etrans.
Qed.

Ltac budget_side := intros; apply within_budget_same; reflexivity.

Section Budget.

Variable env : Env.

Lemma get_youtube_transcript_within_budget (video_id : string) :
  keeps within_budget (get_youtube_transcript env video_id).
Proof. keeps_auto; budget_side. Qed.

Lemma download_video_within_budget (url output_path : string) :
  keeps within_budget (download_video env url output_path).
Proof. keeps_auto; budget_side. Qed.

Lemma extract_audio_ffmpeg_within_budget (video_path audio_path : string) :
  keeps within_budget (extract_audio_ffmpeg env video_path audio_path).
Proof. keeps_auto; budget_side. Qed.

Lemma summarize_with_openai_within_budget (text' : string) (max_tokens : nat) :
  keeps within_budget (summarize_with_openai env text' max_tokens).
Proof. keeps_auto; budget_side. Qed.

Lemma cleanup_within_budget : keeps within_budget (cleanup env).
Proof. keeps_auto; budget_side. Qed.

Lemma transcribe_audio_whisper_within_budget (audio_path language : string) :
  keeps within_budget (transcribe_audio_whisper env audio_path language).
Proof.
  intros st. unfold within_budget, build_budget.
  destruct (whisper_model (self st)) as [m|] eqn:Hm.
  - destruct (transcribe_with_model env audio_path language st m Hm) as (Hs & Hb & _).
    by rewrite Hs, Hb, Hm.
  - pose proof (transcribe_without_model env audio_path language st Hm) as H.
    destruct (ext_load_model env (whisper_model_size (self st))) as [e|].
    + rewrite H. simpl. by rewrite Hm.
    + destruct H as (Hs & Hb & _). rewrite Hs, Hb. simpl. lia.
Qed.

Lemma process_video_within_budget (url : string) :
  keeps within_budget (process_video env url).
Proof.
  unfold process_video, _extract_video_id.
  destruct (first_match patterns url) as [m|].
  2:{ intros st. unfold bind, raise. simpl. reflexivity. }
  apply keeps_bind; [apply _ | apply keeps_ret; apply _ | intros video_id].
  apply keeps_bind; [apply _ | keeps_auto; budget_side | intros _].
  apply keeps_try_finally; [apply _ | | apply cleanup_within_budget].
  apply keeps_try_except;
    [apply _ | | intros e; unfold except_block; apply keeps_ret; apply _].
  unfold try_block, fallback_block.
  apply keeps_bind;
    [apply _ | apply get_youtube_transcript_within_budget | intros transcript].
  apply keeps_bind; [apply _ | | intros transcript'].
  - destruct (negb (truthy transcript)); [|apply keeps_ret; apply _].
    apply keeps_bind; [apply _ | apply download_video_within_budget | intros video_path].
    apply keeps_bind; [apply _ | keeps_auto; budget_side | intros _].
    apply keeps_bind; [apply _ | apply extract_audio_ffmpeg_within_budget | intros _].
    apply keeps_bind; [apply _ | keeps_auto; budget_side | intros _].
    apply transcribe_audio_whisper_within_budget.
  - apply keeps_bind;
      [apply _ | apply summarize_with_openai_within_budget | intros summary].
    keeps_auto; budget_side.
Qed.

End Budget.

Lemma transcribe_video_malformed_url_witness :
  fst (MainPy.transcribe_video http_str_colon env_speech (Some "sk-test")
         (request_for "https://example.com/") 1000 1250 new_server)
  = {| MainPy.success := false; MainPy.video_id := "unknown";
       MainPy.transcript := None; MainPy.summary := None; MainPy.method := None;
       MainPy.processing_time := Some 250%Z;
       MainPy.error := Some "Erro interno: URL do YouTube inválida" |}.
Proof.
  apply (transcribe_video_malformed_url http_str_colon env_speech "sk-test"
           (request_for "https://example.com/") 1000 1250 new_server).
  - discriminate.
  - vm_compute. reflexivity.
Defined.

Section HttpServer.

Variable http_str : nat -> string -> string.

(** Without an API key in the environment and no transcriber yet, the
    [HTTPException] of [get_transcriber] does not leave the handler: the
    request is answered with an ordinary [success = False] response, no
    transcriber is created and [process_video] is not called. *)
Theorem transcribe_video_without_key (env : Env) (openai_key : option string)
    (request : MainPy.VideoRequest) (start_time end_time : Z) (sv : MainPy.Server) :
  MainPy.transcriber_instance sv = None ->
  truthy openai_key = false ->
  MainPy.transcribe_video http_str env openai_key request start_time end_time sv
  = ({| MainPy.success := false; MainPy.video_id := "unknown";
        MainPy.transcript := None; MainPy.summary := None; MainPy.method := None;
        MainPy.processing_time := Some (end_time - start_time)%Z;
        MainPy.error :=
          Some ("Erro interno: "
                +:+ http_str 500 "Chave da API OpenAI não configurada") |},
     sv).
Proof.
  intros Hinst Hkey.
  unfold MainPy.transcribe_video, MainPy.get_transcriber.
  by rewrite Hinst, Hkey.
Qed.

(** Once the transcriber exists and the address carries an identifier, the
    response of [POST /transcribe] mirrors the dictionary of
    [process_video]: on success its identifier, transcript, summary and
    method; on failure its identifier and its error message, as they are.
    The handler's own ["Erro interno"] answer does not occur. *)
Theorem transcribe_video_relays (env : Env) (openai_key : option string)
    (request : MainPy.VideoRequest) (start_time end_time : Z) (sv : MainPy.Server)
    (d : list (string * Value)) (st' : State) :
  MainPy.transcriber_instance sv = Some MainPy.TheTranscriber ->
  process_video env (MainPy.url request) (MainPy.process sv) = (Ok d, st') ->
  let run := MainPy.transcribe_video http_str env openai_key request
               start_time end_time sv in
  MainPy.process (snd run) = st' /\
  dict_get d "video_id" = Some (VStr (MainPy.video_id (fst run))) /\
  ((MainPy.success (fst run) = true /\
    dict_get d "success" = Some (VBool true) /\
    dict_get d "transcript" = VStr <$> MainPy.transcript (fst run) /\
    dict_get d "summary" = VStr <$> MainPy.summary (fst run) /\
    dict_get d "method" = VStr <$> MainPy.method (fst run) /\
    MainPy.error (fst run) = None)
   \/
   (MainPy.success (fst run) = false /\
    dict_get d "success" = Some (VBool false) /\
    dict_get d "error" = VStr <$> MainPy.error (fst run) /\
    MainPy.transcript (fst run) = None /\
    MainPy.summary (fst run) = None /\
    MainPy.method (fst run) = None)).
Proof.
  intros Hinst H run. subst run.
  unfold MainPy.transcribe_video, MainPy.get_transcriber. rewrite Hinst, H.
  destruct (process_video_returned_has_id env _ _ d st' H) as [video_id Hid].
  destruct (process_video_run env _ video_id (MainPy.process sv) Hid)
    as (r & st1 & st2 & Et & _ & E).
  rewrite E in H. injection H as <- <-.
  apply try_block_outcome in Et; [|done].
  destruct r as [d|e].
  - destruct Et as [(t & s & ->) _]. cbn. split; [done|]. split; [done|].
    left. done.
  - cbn. split; [done|]. split; [done|]. right. done.
Qed.

Lemma transcribe_video_inv (env : Env) (openai_key : option string)
    (request : MainPy.VideoRequest) (start_time end_time : Z) (sv : MainPy.Server) :
  server_invariant sv ->
  server_invariant
    (snd (MainPy.transcribe_video http_str env openai_key request start_time end_time sv)).
Proof.
  unfold server_invariant, MainPy.transcribe_video, MainPy.get_transcriber.
  destruct (MainPy.transcriber_instance sv) as [[]|] eqn:Hinst; intros Hinv.
  - pose proof (process_video_within_budget env (MainPy.url request) (MainPy.process sv))
      as Hb.
    destruct (process_video env (MainPy.url request) (MainPy.process sv)) as [[d|e] st'];
      cbn in *; rewrite Hinst; unfold within_budget in Hb; lia.
  - destruct (negb (truthy openai_key)); [cbn; by rewrite Hinst|].
    unfold YouTubeTranscriber_init.
    destruct (String.eqb (default "" openai_key) ""); [cbn; by rewrite Hinst|].
    set (st1 := with_self _ (MainPy.process sv)).
    assert (H1 : build_budget st1 <= 1)
      by (subst st1; unfold build_budget; simpl; lia).
    pose proof (process_video_within_budget env (MainPy.url request) st1) as Hb.
    cbn [MainPy.process MainPy.transcriber_instance].
    unfold within_budget in Hb.
    destruct (process_video env (MainPy.url request) st1) as [[d|e] st'];
      cbn [snd MainPy.process MainPy.transcriber_instance] in *; lia.
Qed.

Lemma serve_inv (requests : list (Env * option string * MainPy.VideoRequest * Z * Z))
    (sv : MainPy.Server) :
  server_invariant sv -> server_invariant (snd (serve http_str requests sv)).
Proof.
  revert sv.
  induction requests as [|[[[[env openai_key] request] start_time] end_time] requests IH];
    intros sv Hinv; cbn [serve]; [done|].
  pose proof (transcribe_video_inv env openai_key request start_time end_time sv Hinv) as H1.
  destruct (MainPy.transcribe_video http_str env openai_key request start_time end_time sv)
    as [response sv1].
  specialize (IH sv1 H1).
  destruct (serve http_str requests sv1) as [responses sv2]. exact IH.
Qed.

(** A server process that starts without a transcriber and without a model
    builds at most one Whisper model, however many [POST /transcribe]
    requests it serves and whatever happens in them: [get_transcriber]
    keeps one transcriber for the process and the transcriber keeps its
    model. *)
Theorem server_builds_at_most_one_model
    (requests : list (Env * option string * MainPy.VideoRequest * Z * Z))
    (sv : MainPy.Server) :
  MainPy.transcriber_instance sv = None ->
  models_built (MainPy.process sv) = 0 ->
  models_built (MainPy.process (snd (serve http_str requests sv))) <= 1.
Proof.
  intros Hinst Hzero.
  assert (Hinv : server_invariant sv) by (unfold server_invariant; by rewrite Hinst).
  pose proof (serve_inv requests sv Hinv) as H.
  unfold server_invariant, build_budget in H.
  destruct (MainPy.transcriber_instance (snd (serve http_str requests sv))); lia.
Qed.

End HttpServer.

Lemma transcribe_video_without_key_witness :
  MainPy.transcribe_video http_str_colon env_speech None
    (request_for "https://youtu.be/abc123") 1000 1250 new_server
  = ({| MainPy.success := false; MainPy.video_id := "unknown";
        MainPy.transcript := None; MainPy.summary := None; MainPy.method := None;
        MainPy.processing_time := Some 250%Z;
        MainPy.error := Some "Erro interno: 500: Chave da API OpenAI não configurada" |},
     new_server).
Proof.
  exact (transcribe_video_without_key http_str_colon env_speech None
           (request_for "https://youtu.be/abc123") 1000 1250 new_server eq_refl eq_refl).
Defined.

Lemma server_builds_at_most_one_model_witness :
  models_built
    (MainPy.process
       (snd (serve http_str_colon
               [ (env_speech, Some "sk-test", request_for "https://youtu.be/abc123", 0%Z, 9%Z);
                 (env_no_model, Some "sk-test", request_for "https://youtu.be/xyz789", 10%Z, 19%Z);
                 (env_speech, Some "sk-test", request_for "not a url", 20%Z, 21%Z);
                 (env_speech, None, request_for "https://youtu.be/xyz789", 30%Z, 39%Z) ]
               new_server))) <= 1.
Proof.
  apply (server_builds_at_most_one_model http_str_colon); reflexivity.
Defined.

Lemma transcribe_video_relays_witness :
  let run := MainPy.transcribe_video http_str_colon env_hello (Some "sk-test")
               (request_for "https://www.youtube.com/watch?v=abc123") 1000 1250
               running_server in
  MainPy.process (snd run) = snd run_captions /\
  dict_get (returned run_captions) "video_id" = Some (VStr (MainPy.video_id (fst run))) /\
  ((MainPy.success (fst run) = true /\
    dict_get (returned run_captions) "success" = Some (VBool true) /\
    dict_get (returned run_captions) "transcript" = VStr <$> MainPy.transcript (fst run) /\
    dict_get (returned run_captions) "summary" = VStr <$> MainPy.summary (fst run) /\
    dict_get (returned run_captions) "method" = VStr <$> MainPy.method (fst run) /\
    MainPy.error (fst run) = None)
   \/
   (MainPy.success (fst run) = false /\
    dict_get (returned run_captions) "success" = Some (VBool false) /\
    dict_get (returned run_captions) "error" = VStr <$> MainPy.error (fst run) /\
    MainPy.transcript (fst run) = None /\
    MainPy.summary (fst run) = None /\
    MainPy.method (fst run) = None)).
Proof.
  apply (transcribe_video_relays http_str_colon env_hello (Some "sk-test")
           (request_for "https://www.youtube.com/watch?v=abc123") 1000 1250
           running_server (returned run_captions) (snd run_captions)).
  - reflexivity.
  - vm_compute. reflexivity.
Defined.

(** ** The speech path from end to end *)

(** No usable captions, a transcriber without a model, and every step
    working at the first attempt: the run makes its outside calls in this
    order and no other: caption request, Basic download, ffmpeg, model load,
    transcription of [temp_audio.wav] in language [pt], chat request on the
    transcribed text, removal of the video, removal of the audio; it returns
    the transcribed text and the summary tagged [whisper]. *)
Theorem process_video_speech_path_run (env : Env) (url video_id t s : string) (st : State) :
  video_id_of url = Some video_id ->
  truthy (caption_text env video_id) = false ->
  whisper_model (self st) = None ->
  ext_ydl_download env (ydl_opts_basic "temp_video.mp4") [url] = Done ->
  ext_subprocess_run env (ffmpeg_command (files st) "temp_video.mp4" "temp_audio.wav") = Done ->
  ext_load_model env (whisper_model_size (self st)) = None ->
  let m := {| model_size := whisper_model_size (self st); model_serial := models_built st |} in
  ext_transcribe env m "temp_audio.wav" "pt" = inr t ->
  ext_chat_completion env "gpt-3.5-turbo" summary_system_content
    (summary_user_content t) 500 = inr s ->
  ext_os_remove env "temp_video.mp4" = None ->
  ext_os_remove env "temp_audio.wav" = None ->
  fst (process_video env url st)
  = Ok [ ("video_id", VStr video_id); ("transcript", VStr t); ("summary", VStr s);
         ("method", VStr "whisper"); ("success", VBool true) ] /\
  trace (snd (process_video env url st))
  = trace st
    ++ [ EvGetTranscript video_id caption_languages;
         EvDownload (ydl_opts_basic "temp_video.mp4") [url];
         EvSubprocess (ffmpeg_command (files st) "temp_video.mp4" "temp_audio.wav");
         EvLoadModel (whisper_model_size (self st));
         EvTranscribe m "temp_audio.wav" "pt";
         EvChat "gpt-3.5-turbo" summary_system_content (summary_user_content t) 500;
         EvRemove "temp_video.mp4";
         EvRemove "temp_audio.wav" ] /\
  whisper_model (self (snd (process_video env url st))) = Some m.
Proof.
  intros Hid Hcap Hnone Hdl Hff Hload m Htr Hchat Hrv Hra.
  assert (Hexe : forall fs : gset string,
            bool_decide ("ffmpeg.exe" ∈ {["temp_video.mp4"]} ∪ fs)
            = bool_decide ("ffmpeg.exe" ∈ fs)).
  { intros fs. apply bool_decide_ext. set_solver. }
  assert (Hv : forall fs : gset string,
            bool_decide ("temp_video.mp4" ∈ {["temp_audio.wav"]} ∪ ({["temp_video.mp4"]} ∪ fs))
            = true) by (intros fs; apply bool_decide_eq_true_2; set_solver).
  assert (Ha : forall fs : gset string,
            bool_decide ("temp_audio.wav"
                           ∈ ({["temp_audio.wav"]} ∪ ({["temp_video.mp4"]} ∪ fs))
                               ∖ {["temp_video.mp4"]})
            = true) by (intros fs; apply bool_decide_eq_true_2; set_solver).
  assert (E : exists st',
    process_video env url st
    = (Ok [ ("video_id", VStr video_id); ("transcript", VStr t); ("summary", VStr s);
            ("method", VStr "whisper"); ("success", VBool true) ], st') /\
    trace st'
    = trace st
      ++ [ EvGetTranscript video_id caption_languages;
           EvDownload (ydl_opts_basic "temp_video.mp4") [url];
           EvSubprocess (ffmpeg_command (files st) "temp_video.mp4" "temp_audio.wav");
           EvLoadModel (whisper_model_size (self st));
           EvTranscribe m "temp_audio.wav" "pt";
           EvChat "gpt-3.5-turbo" summary_system_content (summary_user_content t) 500;
           EvRemove "temp_video.mp4";
           EvRemove "temp_audio.wav" ] /\
    whisper_model (self st') = Some m).
  { unfold process_video. unfold bind at 1. rewrite extract_video_id_run, Hid.
    unfold bind at 1, modify at 1. unfold try_finally, try_except, try_block.
    unfold bind at 1. rewrite get_youtube_transcript_run.
    fold (caption_text env video_id). rewrite Hcap. cbn [negb].
    unfold fallback_block. run_download. rewrite Hdl.
    unfold extract_audio_ffmpeg, os_path_exists, subprocess_run, emit, modify,
      try_except, run_tool, transcribe_audio_whisper, whisper_load_model,
      model_transcribe, summarize_with_openai, chat_completions_create, cleanup,
      os_remove, os_path_exists, emit, modify, try_except.
    unfold bind, get, ret, raise.
    cbn -[bool_decide elem_of union difference summary_user_content summary_system_content String.append].
    rewrite Hexe. fold (ffmpeg_command (files st) "temp_video.mp4" "temp_audio.wav").
    rewrite Hff. cbn -[bool_decide elem_of union difference summary_user_content summary_system_content String.append].
    rewrite Hnone. cbn -[bool_decide elem_of union difference summary_user_content summary_system_content String.append].
    rewrite Hload. cbn -[bool_decide elem_of union difference summary_user_content summary_system_content String.append].
    fold m. rewrite Htr. cbn -[bool_decide elem_of union difference summary_user_content summary_system_content String.append].
    rewrite Hchat. cbn -[bool_decide elem_of union difference summary_user_content summary_system_content String.append].
    unfold bind, ret, raise.
    cbn -[bool_decide elem_of union difference summary_user_content summary_system_content String.append].
    rewrite Hv. cbn -[bool_decide elem_of union difference summary_user_content summary_system_content String.append].
    rewrite Hrv. cbn -[bool_decide elem_of union difference summary_user_content summary_system_content String.append].
    rewrite Hv. cbn -[bool_decide elem_of union difference summary_user_content summary_system_content String.append].
    rewrite Ha. cbn -[bool_decide elem_of union difference summary_user_content summary_system_content String.append].
    rewrite Hra. cbn -[bool_decide elem_of union difference summary_user_content summary_system_content String.append].
    rewrite Ha. cbn -[bool_decide elem_of union difference summary_user_content summary_system_content String.append].
    eexists. split_and!; [reflexivity | simpl; by rewrite <- !app_assoc | done]. }
  destruct E as (st' & -> & Ht & Hm). done.
Qed.

Lemma process_video_speech_path_run_witness :
  fst (process_video env_speech "https://youtu.be/abc123" sample_state)
  = Ok [ ("video_id", VStr "abc123"); ("transcript", VStr "spoken words");
         ("summary", VStr "a summary");
         ("method", VStr "whisper"); ("success", VBool true) ] /\
  trace (snd (process_video env_speech "https://youtu.be/abc123" sample_state))
  = trace sample_state
    ++ [ EvGetTranscript "abc123" caption_languages;
         EvDownload (ydl_opts_basic "temp_video.mp4") ["https://youtu.be/abc123"];
         EvSubprocess (ffmpeg_command (files sample_state) "temp_video.mp4" "temp_audio.wav");
         EvLoadModel "base";
         EvTranscribe {| model_size := "base"; model_serial := 0 |} "temp_audio.wav" "pt";
         EvChat "gpt-3.5-turbo" summary_system_content
           (summary_user_content "spoken words") 500;
         EvRemove "temp_video.mp4";
         EvRemove "temp_audio.wav" ] /\
  whisper_model (self (snd (process_video env_speech "https://youtu.be/abc123" sample_state)))
  = Some {| model_size := "base"; model_serial := 0 |}.
Proof.
  apply (process_video_speech_path_run env_speech "https://youtu.be/abc123" "abc123"
           "spoken words" "a summary" sample_state).
  - vm_compute. reflexivity.
  - reflexivity.
  - reflexivity.
  - reflexivity.
  - reflexivity.
  - reflexivity.
  - reflexivity.
  - reflexivity.
  - reflexivity.
  - reflexivity.
Defined.
